(** * A two-pass mini type checker: semantic analyzer and type checker

    Shallow embedding of [mini-type-checker/mini_type_checker.py].

    The Python program walks a libcst syntax tree twice.  The first walk
    ([SemanticAnalyzer.analyze]) fills three dictionaries with typing
    facts, the second one ([TypeChecker.check]) reads them and prints
    diagnostics.  Dictionaries are [gmap]s keyed by strings, the mutable
    analyzer object and the output stream are threaded explicitly through
    a state-and-exception monad, and Python exceptions are values of
    [exception]. *)

From Stdlib Require Import String Ascii List Bool Arith Lia.
From stdpp Require Import base option list strings gmap fin_maps pretty.

Import ListNotations.
Local Open Scope string_scope.
Set Warnings "-register-all".

(** ** Syntax trees

    The part of libcst's node hierarchy the program inspects.  Wrapper
    nodes that carry no information of their own are elided: an [Arg] is
    its [value], an [AssignTarget] is its [target], an [Annotation] is the
    identifier of its [annotation], and a callee, a target or an
    annotation is a [Name], given by its identifier.  Trees with another
    callee ([a.b(...)], [f()()]), target or annotation are outside the
    embedding: what the program does on them (reading [.value] of a node
    that has none, using a node as a key) is not stated here. *)

Inductive binop : Type := Add | Subtract | Multiply | Divide.

Inductive expr : Type :=
| Name (value : string)
| Integer (value : string)
| SimpleString (value : string)
| Call (func : string) (args : list expr)
| BinaryOperation (left : expr) (operator : binop) (right : expr).

(** [SimpleString] carries the text the literal denotes, that is, what
    Python's [eval] returns for its token; [Integer] carries the token. *)

(** Small statements and compound statements.  [Pass] stands for the
    small statements the analyzer knows nothing of, [If] and [ClassDef]
    for the compound statements other than a function definition. *)

Inductive small_stmt : Type :=
| Assign (targets : list string) (value : expr)
| AnnAssign (target : string) (annotation : string) (value : option expr)
| Return (value : option expr)
| Expr (value : expr)
| ImportFrom
| Pass.

Record Param : Type := { param_name : string; param_annotation : option string }.

Inductive stmt : Type :=
| SimpleStatementLine (body : list small_stmt)
| FunctionDef (name : string) (params : list Param) (body : suite)
              (returns : option string)
| If (test : expr) (body : suite)
| ClassDef (name : string) (body : suite)
with suite : Type :=
| IndentedBlock (body : list stmt)
| SimpleStatementSuite (body : list small_stmt).

(** A [Module], as the sequence of its top-level statements
    ([root.body]). *)
Definition cst_Module : Type := list stmt.

(** ** Types as strings

    The program represents a type by a Python string.  [ANY_TYPE] is one
    string object, the module constant; it is compared with [==]
    everywhere but in the binary-operation check, which uses [is], the
    identity of objects.  A string read from the syntax tree is another
    object, whatever its text, so the embedding keeps the two apart. *)

Inductive type_str : Type :=
| ANY_TYPE
| TypeName (text : string).

Definition INT_TYPE : type_str := TypeName "int".
Definition STR_TYPE : type_str := TypeName "str".

Definition type_text (t : type_str) : string :=
  match t with
  | ANY_TYPE => "any"
  | TypeName s => s
  end.

(** Python's [==] on two type strings. *)
Definition type_eqb (a b : type_str) : bool :=
  String.eqb (type_text a) (type_text b).

(** Python's [is ANY_TYPE]. *)
Definition is_ANY_TYPE (t : type_str) : bool :=
  match t with
  | ANY_TYPE => true
  | TypeName _ => false
  end.

(** ** Exceptions and the state monad *)

Inductive exception : Type :=
| NotImplementedError
| AttributeError
| KeyError
| IndexError
| NameError
| RuntimeError.

Inductive result (A : Type) : Type :=
| Ok (a : A)
| Raise (e : exception).
Arguments Ok {A} a.
Arguments Raise {A} e.

(** A computation over a mutable state [St]: the state it leaves behind,
    also when it raises, and its outcome. *)
Definition M (St A : Type) : Type := St -> St * result A.

Definition ret {St A} (a : A) : M St A := fun s => (s, Ok a).

Definition raise {St A} (e : exception) : M St A := fun s => (s, Raise e).

Definition bind {St A B} (m : M St A) (k : A -> M St B) : M St B :=
  fun s =>
    match m s with
    | (s', Ok a) => k a s'
    | (s', Raise e) => (s', Raise e)
    end.

Definition get {St} : M St St := fun s => (s, Ok s).

Definition modify {St} (f : St -> St) : M St unit := fun s => (f s, Ok tt).

Declare Scope py_scope.
Delimit Scope py_scope with py.
Notation "x <- m ;; k" := (bind m (fun x => k))
  (at level 100, m at next level, right associativity) : py_scope.
Notation "m ;;; k" := (bind m (fun _ => k))
  (at level 100, right associativity) : py_scope.
Local Open Scope py_scope.

(** [for x in l: f x] *)
Definition for_each {St X} (f : X -> M St unit) : list X -> M St unit :=
  fix go (l : list X) : M St unit :=
    match l with
    | [] => ret tt
    | x :: l' => f x ;;; go l'
    end.

(** [for i, x in enumerate(l): f i x], counting from [i]. *)
Definition for_enumerate_from {St X} (f : nat -> X -> M St unit)
  : nat -> list X -> M St unit :=
  fix go (i : nat) (l : list X) : M St unit :=
    match l with
    | [] => ret tt
    | x :: l' => f i x ;;; go (S i) l'
    end.

Definition for_enumerate {St X} (f : nat -> X -> M St unit) (l : list X)
  : M St unit :=
  for_enumerate_from f 0 l.

(** [l[i]], raising [IndexError] out of range. *)
Definition index {St X} (l : list X) (i : nat) : M St X :=
  match l !! i with
  | Some x => ret x
  | None => raise IndexError
  end.

(** [d[k]], raising [KeyError] for a missing key. *)
Definition subscript {St V} (d : gmap string V) (k : string) : M St V :=
  match d !! k with
  | Some v => ret v
  | None => raise KeyError
  end.

(** ** The semantic analyzer *)

(** A value of [GENERICS_TYPE_INFO]: what [eval] returned. *)
Inductive pyval : Type :=
| PyStr (s : string)
| PyInt (token : string).

(** An entry of [FUNCTION_TYPE_INFO]: the dictionary with the keys
    ["args"] and ["return"]. *)
Record signature : Type :=
  { sig_args : list (string * type_str);
    sig_return : type_str }.

Record analyzer : Type :=
  { GENERICS_TYPE_INFO : gmap string pyval;
    FUNCTION_TYPE_INFO : gmap string signature;
    VARIABLE_TYPE_INFO : gmap string type_str;
    done : bool }.

Module SemanticAnalyzer.

(** [SemanticAnalyzer()] *)
Definition init : analyzer :=
  {| GENERICS_TYPE_INFO := ∅;
     FUNCTION_TYPE_INFO := ∅;
     VARIABLE_TYPE_INFO := ∅;
     done := false |}.

Definition set_generic (k : string) (v : pyval) (a : analyzer) : analyzer :=
  {| GENERICS_TYPE_INFO := <[k := v]> (GENERICS_TYPE_INFO a);
     FUNCTION_TYPE_INFO := FUNCTION_TYPE_INFO a;
     VARIABLE_TYPE_INFO := VARIABLE_TYPE_INFO a;
     done := done a |}.

Definition set_function (k : string) (v : signature) (a : analyzer)
  : analyzer :=
  {| GENERICS_TYPE_INFO := GENERICS_TYPE_INFO a;
     FUNCTION_TYPE_INFO := <[k := v]> (FUNCTION_TYPE_INFO a);
     VARIABLE_TYPE_INFO := VARIABLE_TYPE_INFO a;
     done := done a |}.

Definition set_variable (k : string) (v : type_str) (a : analyzer)
  : analyzer :=
  {| GENERICS_TYPE_INFO := GENERICS_TYPE_INFO a;
     FUNCTION_TYPE_INFO := FUNCTION_TYPE_INFO a;
     VARIABLE_TYPE_INFO := <[k := v]> (VARIABLE_TYPE_INFO a);
     done := done a |}.

Definition set_done (a : analyzer) : analyzer :=
  {| GENERICS_TYPE_INFO := GENERICS_TYPE_INFO a;
     FUNCTION_TYPE_INFO := FUNCTION_TYPE_INFO a;
     VARIABLE_TYPE_INFO := VARIABLE_TYPE_INFO a;
     done := true |}.

(** [node.annotation.value if isinstance(node, cst.Annotation)
     else ANY_TYPE] *)
Definition _analyze_annotation (node : option string) : type_str :=
  match node with
  | Some value => TypeName value
  | None => ANY_TYPE
  end.

(** [eval(body.value.args[0].value.value)]: the first argument's token,
    evaluated.  A literal evaluates to its value.  A name is looked up in
    the scope of the analyzer's method, not in the analysed program; the
    embedding takes it to be unbound there.  A name that is bound in that
    scope (a builtin such as [int], a global of the checker, a local of
    the method) evaluates to its value in the program and is outside the
    embedding, as is an argument whose [.value] is a node. *)
Definition eval_first_arg (args : list expr) : M analyzer pyval :=
  arg <- index args 0 ;;
  match arg with
  | SimpleString s => ret (PyStr s)
  | Integer tok => ret (PyInt tok)
  | Name _ => raise NameError
  | Call _ _ | BinaryOperation _ _ _ => raise AttributeError
  end.

Definition _analyze_simple_statement_line (node : list small_stmt)
  : M analyzer unit :=
  body <- index node 0 ;;
  match body with
  | Assign targets value =>
      match value with
      | Call func args =>
          if String.eqb func "TypeVar" then
            variable_key <- index targets 0 ;;
            variable_value <- eval_first_arg args ;;
            modify (set_generic variable_key variable_value)
          else ret tt
      | _ => raise AttributeError (* [body.value.func] *)
      end
  | AnnAssign target annotation _ =>
      modify (set_variable target (_analyze_annotation (Some annotation)))
  | Return _ => ret tt
  | Expr _ => ret tt
  | ImportFrom => ret tt
  | Pass => raise NotImplementedError
  end.

Definition _analyze_function_def (name : string) (params : list Param)
           (body : suite) (returns : option string) : M analyzer unit :=
  match body with
  | IndentedBlock function_def_body =>
      for_each (fun node_in_function_def_body =>
                  match node_in_function_def_body with
                  | SimpleStatementLine l => _analyze_simple_statement_line l
                  | _ => raise NotImplementedError
                  end) function_def_body
  | SimpleStatementSuite function_def_body =>
      for_each (fun _ => raise NotImplementedError) function_def_body
  end ;;;
  modify (set_function name
            {| sig_args :=
                 map (fun param =>
                        (param_name param,
                         _analyze_annotation (param_annotation param)))
                     params;
               sig_return := _analyze_annotation returns |}).

Definition analyze (root : cst_Module) : M analyzer unit :=
  for_each (fun node =>
              match node with
              | SimpleStatementLine l => _analyze_simple_statement_line l
              | FunctionDef name params body returns =>
                  _analyze_function_def name params body returns
              | _ => raise NotImplementedError
              end) root ;;;
  modify set_done.

End SemanticAnalyzer.

(** ** Diagnostics

    The four message templates, filled by [str.format]. *)

Definition dq : string := String "034"%char EmptyString.

Definition quoted (s : string) : string := dq +:+ s +:+ dq.

Definition arg_type_error_tmpl (pos : nat) (func actual declared : string)
  : string :=
  "Argument " +:+ pretty pos +:+ " to " +:+ quoted func
  +:+ " has incompatible type " +:+ quoted actual
  +:+ "; expected " +:+ quoted declared +:+ "  [arg-type]".

Definition assignment_error_tmpl (actual declared : string) : string :=
  "Incompatible types in assignment (expression has type " +:+ quoted actual
  +:+ ", variable has type " +:+ quoted declared +:+ ") [assignment]".

Definition return_value_error_tmpl (got expected : string) : string :=
  "Incompatible return value type (got " +:+ quoted got
  +:+ ", expected " +:+ quoted expected +:+ ")  [return-value]".

Definition operand_error_tmpl (op left right : string) : string :=
  "Unsupported operand types for " +:+ op +:+ " (" +:+ quoted left
  +:+ " and " +:+ quoted right +:+ ")  [operator]".

(** ** The type checker *)

(** The checker object, with the stream its [print] calls write to. *)
Record checker : Type :=
  { ANALYZER : analyzer;
    stdout : list string }.

Module TypeChecker.

(** [TypeChecker(analyzer)] *)
Definition init (analyzer : analyzer) : result checker :=
  if negb (done analyzer) then Raise RuntimeError
  else Ok {| ANALYZER := analyzer; stdout := [] |}.

Definition print (line : string) : M checker unit :=
  modify (fun self =>
            {| ANALYZER := ANALYZER self; stdout := stdout self ++ [line] |}).

(** [self.ANALYZER.FUNCTION_TYPE_INFO], and the other two tables. *)
Definition function_type_info : M checker (gmap string signature) :=
  self <- get ;; ret (FUNCTION_TYPE_INFO (ANALYZER self)).

Definition generics_type_info : M checker (gmap string pyval) :=
  self <- get ;; ret (GENERICS_TYPE_INFO (ANALYZER self)).

Definition variable_type_info : M checker (gmap string type_str) :=
  self <- get ;; ret (VARIABLE_TYPE_INFO (ANALYZER self)).

(** [name in d] *)
Definition in_keys {V} (name : string) (d : gmap string V) : bool :=
  bool_decide (is_Some (d !! name)).

(** [name == v] for a string [name] and a stored value [v]. *)
Definition value_eqb (name : string) (v : pyval) : bool :=
  match v with
  | PyStr s => String.eqb name s
  | PyInt _ => false
  end.

(** [name in d.values()] *)
Definition in_values (name : string) (d : gmap string pyval) : bool :=
  existsb (value_eqb name) (map_to_list d).*2.

(** The branch of [_resolve_node] for operator nodes. *)
Definition _resolve_operator (node : binop) : type_str :=
  match node with
  | Add => TypeName "+"
  | _ => ANY_TYPE
  end.

Definition _check_and_resolve_binary_operation
           (_resolve_node : expr -> M checker type_str)
           (node_left : expr) (node_operator : binop) (node_right : expr)
  : M checker type_str :=
  let operator := _resolve_operator node_operator in
  left <- _resolve_node node_left ;;
  right <- _resolve_node node_right ;;
  if is_ANY_TYPE left || is_ANY_TYPE right then ret ANY_TYPE
  else
    (if negb (type_eqb left right)
     then print (operand_error_tmpl (type_text operator) (type_text left)
                                    (type_text right))
     else ret tt) ;;;
    ret left.

(** The branches of [_resolve_node] for expressions. *)
Fixpoint _resolve_node (node : expr) : M checker type_str :=
  match node with
  | Integer _ => ret INT_TYPE
  | SimpleString _ => ret STR_TYPE
  | Call func_name _ =>
      info <- function_type_info ;;
      match info !! func_name with
      | None => ret ANY_TYPE
      | Some sig => ret (sig_return sig)
      end
  | Name _ => ret ANY_TYPE
  | BinaryOperation node_left node_operator node_right =>
      _check_and_resolve_binary_operation _resolve_node
        node_left node_operator node_right
  end.

(** The branch of [_resolve_node] for a [Return]; a bare [return] has
    the value [None], which no test of [_resolve_node] matches. *)
Definition _resolve_return (value : option expr) : M checker type_str :=
  match value with
  | Some e => _resolve_node e
  | None => ret ANY_TYPE
  end.

(** [node.value.func.value] with [node.value.args]. *)
Definition call_of (node : small_stmt) : M checker (string * list expr) :=
  match node with
  | AnnAssign _ _ (Some (Call func args))
  | Expr (Call func args)
  | Assign _ (Call func args)
  | Return (Some (Call func args)) => ret (func, args)
  | _ => raise AttributeError
  end.

(** [node.target.value] *)
Definition target_of (node : small_stmt) : M checker string :=
  match node with
  | AnnAssign target _ _ => ret target
  | _ => raise AttributeError
  end.

(** The body of the loop of [_check_args]: the check of the argument
    [arg] at position [i] of a call to [func_name]. *)
Definition check_argument (func_name : string) (i : nat) (arg : expr)
  : M checker unit :=
  info <- function_type_info ;;
  sig <- subscript info func_name ;;
  annotation <- index (sig_args sig) i ;;
  let annotated_type := snd annotation in
  generics <- generics_type_info ;;
  if type_eqb annotated_type ANY_TYPE then ret tt
  else if in_values (type_text annotated_type) generics then ret tt
  else
    match arg with
    | SimpleString _ =>
        if negb (type_eqb annotated_type STR_TYPE)
        then print (arg_type_error_tmpl (i + 1) func_name
                      (type_text STR_TYPE) (type_text annotated_type))
        else ret tt
    | Integer _ =>
        if negb (type_eqb annotated_type INT_TYPE)
        then print (arg_type_error_tmpl (i + 1) func_name
                      (type_text INT_TYPE) (type_text annotated_type))
        else ret tt
    | _ => raise NotImplementedError
    end.

Definition _check_args (node : small_stmt) : M checker unit :=
  call <- call_of node ;;
  let func_name := fst call in
  info <- function_type_info ;;
  if negb (in_keys func_name info) then ret tt
  else for_enumerate (check_argument func_name) (snd call).

(** The loop of [_check_return] that looks for the parameters annotated
    with the generic return type. *)
Fixpoint generic_actual_type (annotated_return : type_str)
         (typed_args : list expr) (i : nat)
         (annotated_args : list (string * type_str))
         (actual_type : type_str) : M checker type_str :=
  match annotated_args with
  | [] => ret actual_type
  | annotation :: rest =>
      if type_eqb (snd annotation) annotated_return then
        arg <- index typed_args i ;;
        generic_actual_type annotated_return typed_args (S i) rest
          match arg with
          | Integer _ => INT_TYPE
          | _ => actual_type
          end
      else
        generic_actual_type annotated_return typed_args (S i) rest
          actual_type
  end.

Definition _check_return (node : small_stmt) : M checker unit :=
  call <- call_of node ;;
  let func_name := fst call in
  info <- function_type_info ;;
  if negb (in_keys func_name info) then ret tt
  else
    sig <- subscript info func_name ;;
    let annotated_return := sig_return sig in
    generics <- generics_type_info ;;
    if in_keys (type_text annotated_return) generics then
      let typed_args := snd call in
      let annotated_args := sig_args sig in
      actual_type <- generic_actual_type annotated_return typed_args 0
                       annotated_args ANY_TYPE ;;
      target <- target_of node ;;
      variables <- variable_type_info ;;
      declared <- subscript variables target ;;
      if negb (type_eqb declared actual_type)
      then print (assignment_error_tmpl (type_text actual_type)
                                        (type_text declared))
      else ret tt
    else if negb (type_eqb annotated_return ANY_TYPE) then
      actual_type <-
        match node with
        | AnnAssign target _ _ =>
            variables <- variable_type_info ;;
            subscript variables target
        | Return _ =>
            sig' <- subscript info func_name ;;
            ret (sig_return sig')
        | _ => raise NotImplementedError
        end ;;
      if negb (type_eqb actual_type annotated_return)
      then print (assignment_error_tmpl (type_text annotated_return)
                                        (type_text actual_type))
      else ret tt
    else ret tt.

Definition _check_call (node : small_stmt) : M checker unit :=
  _check_args node ;;;
  _check_return node.

(** [_check_assignment(node)] for [node = AnnAssign target annotation
    value]. *)
Definition _check_assignment (target annotation : string)
           (value : option expr) : M checker unit :=
  match value with
  | Some (Integer _) =>
      variables <- variable_type_info ;;
      declared <- subscript variables target ;;
      if negb (type_eqb declared INT_TYPE)
      then print (assignment_error_tmpl (type_text INT_TYPE)
                                        (type_text declared))
      else ret tt
  | _ => ret tt
  end ;;;
  match value with
  | Some (Call _ _) => _check_call (AnnAssign target annotation value)
  | _ => ret tt
  end.

Definition _check_simple_statement_line (node : list small_stmt)
  : M checker unit :=
  body <- index node 0 ;;
  match body with
  | AnnAssign target annotation value =>
      _check_assignment target annotation value
  | Expr (Call _ _) => _check_call body
  | _ => ret tt
  end.

(** The loop of [_check_function_return]: the type of the first
    [return] among the statements of the body. *)
Fixpoint first_return_type (body : list stmt) : M checker type_str :=
  match body with
  | [] => ret ANY_TYPE
  | SimpleStatementLine l :: rest =>
      first <- index l 0 ;;
      match first with
      | Return value => _resolve_return value
      | _ => first_return_type rest
      end
  | _ :: rest => first_return_type rest
  end.

Definition _check_function_return (function_name : string) (body : suite)
  : M checker unit :=
  info <- function_type_info ;;
  if negb (in_keys function_name info) then ret tt
  else
    sig <- subscript info function_name ;;
    let annotated_return_type := sig_return sig in
    actual_return_type <-
      match body with
      | IndentedBlock l => first_return_type l
      | SimpleStatementSuite _ => ret ANY_TYPE
      end ;;
    if type_eqb annotated_return_type ANY_TYPE
       || type_eqb actual_return_type ANY_TYPE
    then ret tt
    else if negb (type_eqb annotated_return_type actual_return_type)
    then print (return_value_error_tmpl (type_text actual_return_type)
                                        (type_text annotated_return_type))
    else ret tt.

(** [check], one node of [root.body] at a time.  [check(node.body)] on
    the suite of a function is [_check_function_content]; the small
    statements of a one-line suite are neither simple statement lines
    nor function definitions. *)
Fixpoint check_node (node : stmt) : M checker unit :=
  match node with
  | SimpleStatementLine l => _check_simple_statement_line l
  | FunctionDef name _ body _ =>
      match body with
      | IndentedBlock l => for_each check_node l
      | SimpleStatementSuite l =>
          for_each (fun _ => raise NotImplementedError) l
      end ;;;
      _check_function_return name body
  | _ => raise NotImplementedError
  end.

Definition check (root : cst_Module) : M checker unit :=
  for_each check_node root.

End TypeChecker.

(** [run]: parse (outside the embedding), analyze, construct, check. *)
Definition run (root_node : cst_Module) : result (checker * result unit) :=
  let '(analyzer, r) := SemanticAnalyzer.analyze root_node SemanticAnalyzer.init in
  match r with
  | Raise e => Raise e
  | Ok _ =>
      match TypeChecker.init analyzer with
      | Raise e => Raise e
      | Ok checker => Ok (TypeChecker.check root_node checker)
      end
  end.

(** ** Vocabulary of the properties *)

(** [name] is a registered generic parameter: the registry holds the
    declaration [name = TypeVar("name")], key and declared name alike. *)
Definition registered_generic (a : analyzer) (name : string) : Prop :=
  GENERICS_TYPE_INFO a !! name = Some (PyStr name).

(** The checker [c] after printing [lines]. *)
Definition printed (c : checker) (lines : list string) : checker :=
  {| ANALYZER := ANALYZER c; stdout := stdout c ++ lines |}.

(** What a computation prints and how it ends when it is started on the
    analyzer [a] with an empty output stream. *)
Definition output_on {A} (a : analyzer) (m : M checker A) : list string :=
  stdout (fst (m {| ANALYZER := a; stdout := [] |})).

Definition outcome_on {A} (a : analyzer) (m : M checker A) : result A :=
  snd (m {| ANALYZER := a; stdout := [] |}).

(** A computation that leaves the analyzer as it found it, only appends
    to the output stream, and whose lines and outcome depend on the
    analyzer alone. *)
Definition read_only {A} (m : M checker A) : Prop :=
  forall c : checker,
    m c = (printed c (output_on (ANALYZER c) m), outcome_on (ANALYZER c) m).

(** Every exception [m] can raise satisfies [P]. *)
Definition raises_only {St A} (P : exception -> Prop) (m : M St A) : Prop :=
  forall (s s' : St) (e : exception), m s = (s', Raise e) -> P e.

(** The first small statement of a line is one that
    [_check_simple_statement_line] looks into. *)
Definition checked_small (s : small_stmt) : bool :=
  match s with
  | AnnAssign _ _ _ => true
  | Expr (Call _ _) => true
  | _ => false
  end.

(** A compound statement other than a function definition. *)
Definition other_compound (node : stmt) : bool :=
  match node with
  | If _ _ | ClassDef _ _ => true
  | _ => false
  end.

(** ** Programs *)

(** [cases/generics_typed_ng.py] *)
Definition generics_typed_ng : cst_Module :=
  [ SimpleStatementLine [ImportFrom];
    SimpleStatementLine [ImportFrom];
    SimpleStatementLine [Assign ["T"] (Call "TypeVar" [SimpleString "T"])];
    FunctionDef "f" [ {| param_name := "x"; param_annotation := Some "T" |} ]
      (IndentedBlock
         [SimpleStatementLine [Return (Some (Call "deepcopy" [Name "x"]))]])
      (Some "T");
    SimpleStatementLine [AnnAssign "x" "int" (Some (Integer "1"))];
    SimpleStatementLine
      [AnnAssign "copy_x" "str" (Some (Call "f" [Integer "1"]))] ].

(** The analyzer after [analyze] on that file, and a checker built on it. *)
Definition generics_typed_ng_analyzer : analyzer :=
  fst (SemanticAnalyzer.analyze generics_typed_ng SemanticAnalyzer.init).

Definition generics_typed_ng_checker : checker :=
  {| ANALYZER := generics_typed_ng_analyzer; stdout := [] |}.

(** [def g(x: int) -> int: return x], then the statement [g("a")]. *)
Definition g_definition : stmt :=
  FunctionDef "g" [ {| param_name := "x"; param_annotation := Some "int" |} ]
    (IndentedBlock [SimpleStatementLine [Return (Some (Name "x"))]])
    (Some "int").

Definition g_bare_call : cst_Module :=
  [ g_definition;
    SimpleStatementLine [Expr (Call "g" [SimpleString "a"])] ].

(** The analyzer after [analyze] on that program, and a checker built on
    it. *)
Definition g_bare_call_analyzer : analyzer :=
  fst (SemanticAnalyzer.analyze g_bare_call SemanticAnalyzer.init).

Definition g_bare_call_checker : checker :=
  {| ANALYZER := g_bare_call_analyzer; stdout := [] |}.

(** The same definition written on one line, as a one-line suite. *)
Definition g_bare_call_one_line : cst_Module :=
  [ FunctionDef "g" [ {| param_name := "x"; param_annotation := Some "int" |} ]
      (SimpleStatementSuite [Return (Some (Name "x"))])
      (Some "int");
    SimpleStatementLine [Expr (Call "g" [SimpleString "a"])] ].

(** The generic function of the case file, called without its argument in
    a statement of its own. *)
Definition generic_bare_call_no_argument : cst_Module :=
  [ SimpleStatementLine [Assign ["T"] (Call "TypeVar" [SimpleString "T"])];
    FunctionDef "f" [ {| param_name := "x"; param_annotation := Some "T" |} ]
      (IndentedBlock [SimpleStatementLine [Return (Some (Name "x"))]])
      (Some "T");
    SimpleStatementLine [Expr (Call "f" [])] ].

(** What [run] printed and how the check ended. *)
Definition report (r : result (checker * result unit))
  : result (list string * result unit) :=
  match r with
  | Ok (c, r') => Ok (stdout c, r')
  | Raise e => Raise e
  end.


(** A generic parameter declared under another name than its variable:
    [T = TypeVar("U")]. *)
Definition declared_name_differs : cst_Module :=
  [ SimpleStatementLine [Assign ["T"] (Call "TypeVar" [SimpleString "U"])];
    FunctionDef "f" [ {| param_name := "x"; param_annotation := Some "T" |} ]
      (IndentedBlock [SimpleStatementLine [Return (Some (Name "x"))]])
      (Some "T");
    SimpleStatementLine [AnnAssign "v" "int" (Some (Call "f" [Integer "1"]))] ].

(** A return annotation spelled [any], used as an operand:
    [def h() -> any: return 1] and [def k(): return h() + 1]. *)
Definition any_annotation_operand : cst_Module :=
  [ FunctionDef "h" []
      (IndentedBlock [SimpleStatementLine [Return (Some (Integer "1"))]])
      (Some "any");
    FunctionDef "k" []
      (IndentedBlock
         [SimpleStatementLine
            [Return (Some (BinaryOperation (Call "h" []) Add (Integer "1")))]])
      None ].

(** ** Vocabulary of the frame and failure properties *)

(** Every run of [m] relates the state before to the state after by [R],
    whatever its outcome. *)
Definition relates {St A} (R : St -> St -> Prop) (m : M St A) : Prop :=
  forall (s s' : St) (r : result A), m s = (s', r) -> R s s'.

(** The analyzer [a'] has every entry of [a], maybe with another value. *)
Definition tables_grow (a a' : analyzer) : Prop :=
  (forall k, is_Some (GENERICS_TYPE_INFO a !! k) ->
             is_Some (GENERICS_TYPE_INFO a' !! k)) /\
  (forall k, is_Some (FUNCTION_TYPE_INFO a !! k) ->
             is_Some (FUNCTION_TYPE_INFO a' !! k)) /\
  (forall k, is_Some (VARIABLE_TYPE_INFO a !! k) ->
             is_Some (VARIABLE_TYPE_INFO a' !! k)).

(** The done flag is as it was. *)
Definition same_done (a a' : analyzer) : Prop := done a' = done a.

(** The table of signatures is as it was. *)
Definition same_functions (a a' : analyzer) : Prop :=
  FUNCTION_TYPE_INFO a' = FUNCTION_TYPE_INFO a.

(** The targets [check] looks up in [VARIABLE_TYPE_INFO]: the annotated
    assignment at the head of a line, at the top level and in the bodies
    of function definitions. *)
Definition line_target (l : list small_stmt) : list string :=
  match l with
  | AnnAssign target _ _ :: _ => [target]
  | _ => []
  end.

Fixpoint checked_targets_node (node : stmt) : list string :=
  match node with
  | SimpleStatementLine l => line_target l
  | FunctionDef _ _ (IndentedBlock l) _ => flat_map checked_targets_node l
  | _ => []
  end.

Definition checked_targets (root : cst_Module) : list string :=
  flat_map checked_targets_node root.

(** The exceptions of a check that follows the analysis of its tree. *)
Definition checker_failure (e : exception) : Prop :=
  e = NotImplementedError \/ e = AttributeError \/ e = IndexError.

(** Started on a checker built on [a], the computation [m] leaves the
    analyzer [a] in place; a result satisfies [Q], an exception [P]. *)
Definition triple {A} (a : analyzer) (P : exception -> Prop)
           (m : M checker A) (Q : A -> Prop) : Prop :=
  forall c : checker,
    ANALYZER c = a ->
    ANALYZER (fst (m c)) = a /\
    match snd (m c) with
    | Ok x => Q x
    | Raise e => P e
    end.

(** The first small statement of a line of a function body is there and
    is no [return]. *)
Definition line_without_return (node : stmt) : Prop :=
  match node with
  | SimpleStatementLine (Return _ :: _) => False
  | SimpleStatementLine [] => False
  | _ => True
  end.

(** The argument is a literal the argument check knows. *)
Definition literal_type (arg : expr) : option type_str :=
  match arg with
  | Integer _ => Some INT_TYPE
  | SimpleString _ => Some STR_TYPE
  | _ => None
  end.

(** [def g(x: int) -> int: return "a"], then [v: str = g(1)]. *)
Definition g_assigned_to_str : cst_Module :=
  [ FunctionDef "g" [ {| param_name := "x"; param_annotation := Some "int" |} ]
      (IndentedBlock [SimpleStatementLine [Return (Some (SimpleString "a"))]])
      (Some "int");
    SimpleStatementLine [AnnAssign "v" "str" (Some (Call "g" [Integer "1"]))] ].

(** A checker built on the analyzer of that program. *)
Definition g_assigned_to_str_checker : checker :=
  {| ANALYZER :=
       fst (SemanticAnalyzer.analyze g_assigned_to_str SemanticAnalyzer.init);
     stdout := [] |}.

(** A function definition inside a function definition. *)
Definition nested_definition : list stmt :=
  [ SimpleStatementLine [AnnAssign "y" "int" (Some (Integer "1"))];
    FunctionDef "inner" [] (IndentedBlock [SimpleStatementLine [Pass]]) None ].

(** * Properties *)

(** ** The monad *)

Lemma printed_nil (c : checker) : printed c [] = c.
Proof. destruct c as [a out]. unfold printed. cbn. by rewrite app_nil_r. Qed.

Lemma printed_printed (c : checker) (l1 l2 : list string) :
  printed (printed c l1) l2 = printed c (l1 ++ l2).
Proof. unfold printed. cbn. by rewrite app_assoc. Qed.

Section Run.
Context {St : Type}.

Lemma bind_ok {A B} (m : M St A) (k : A -> M St B) (s s' : St) (x : A) :
  m s = (s', Ok x) -> bind m k s = k x s'.
Proof. intros H. unfold bind. by rewrite H. Qed.

Lemma bind_raise {A B} (m : M St A) (k : A -> M St B) (s s' : St) e :
  m s = (s', Raise e) -> bind m k s = (s', Raise e).
Proof. intros H. unfold bind. by rewrite H. Qed.

Lemma subscript_ok {V} (d : gmap string V) (k : string) (v : V) (s : St) :
  d !! k = Some v -> subscript d k s = (s, Ok v).
Proof. intros H. unfold subscript. by rewrite H. Qed.

Lemma index_ok {X} (l : list X) (i : nat) (x : X) (s : St) :
  l !! i = Some x -> index l i s = (s, Ok x).
Proof. intros H. unfold index. by rewrite H. Qed.

Lemma raises_only_ret {A} P (x : A) : raises_only P (@ret St A x).
Proof. intros s s' e. discriminate. Qed.

Lemma raises_only_modify P (f : St -> St) : raises_only P (modify f).
Proof. intros s s' e. discriminate. Qed.

Lemma raises_only_raise {A} (P : exception -> Prop) e :
  P e -> raises_only P (@raise St A e).
Proof. intros He s s' e' [= _ <-]. exact He. Qed.

Lemma raises_only_bind {A B} P (m : M St A) (k : A -> M St B) :
  raises_only P m -> (forall x, raises_only P (k x)) ->
  raises_only P (bind m k).
Proof.
  intros Hm Hk s s' e. unfold bind.
  destruct (m s) as [s1 [x|e1]] eqn:Hms.
  - apply Hk.
  - intros [= _ <-]. eapply Hm, Hms.
Qed.

Lemma raises_only_index {X} (P : exception -> Prop) (l : list X) i :
  P IndexError -> raises_only P (@index St X l i).
Proof.
  intros HP. unfold index.
  destruct (l !! i); [apply raises_only_ret|by apply raises_only_raise].
Qed.

Lemma raises_only_for_each {X} P (f : X -> M St unit) (l : list X) :
  (forall x, raises_only P (f x)) -> raises_only P (for_each f l).
Proof.
  intros Hf. induction l as [|x l IH]; cbn.
  - apply raises_only_ret.
  - apply raises_only_bind; [apply Hf|intros _; exact IH].
Qed.

End Run.

(** Runs the first computation of a bind whose result is known. *)
Ltac run_bind :=
  first
    [ erewrite bind_ok by
        first [ eassumption
              | apply subscript_ok; eassumption
              | apply index_ok; eassumption
              | reflexivity ]
    | erewrite bind_raise by first [ eassumption | reflexivity ] ];
  cbv beta zeta.

(** Splits a computation along its binds and case distinctions. *)
Ltac raises_only_step :=
  lazymatch goal with
  | |- raises_only _ (bind _ _) => apply raises_only_bind; [|intros ?]
  | |- raises_only _ (for_each _ _) => apply raises_only_for_each; intros ?
  | |- raises_only _ (ret _) => apply raises_only_ret
  | |- raises_only _ (modify _) => apply raises_only_modify
  | |- raises_only _ (raise _) => apply raises_only_raise; discriminate
  | |- raises_only _ (index _ _) => apply raises_only_index; discriminate
  | |- raises_only _ (if ?b then _ else _) => destruct b
  | |- raises_only _ (match ?x with _ => _ end) => destruct x
  end.

Section ReadOnly.

Lemma read_only_intro {A} (m : M checker A)
      (f : analyzer -> list string * result A) :
  (forall c, m c = (printed c (fst (f (ANALYZER c))), snd (f (ANALYZER c)))) ->
  read_only m.
Proof.
  intros H c. unfold output_on, outcome_on.
  rewrite (H {| ANALYZER := ANALYZER c; stdout := [] |}), H. reflexivity.
Qed.

Lemma read_only_ret {A} (x : A) : read_only (ret x).
Proof.
  apply (read_only_intro _ (fun _ => ([], Ok x))).
  intros c. cbn. by rewrite printed_nil.
Qed.

Lemma read_only_raise {A} (e : exception) : read_only (@raise checker A e).
Proof.
  apply (read_only_intro _ (fun _ => ([], Raise e))).
  intros c. cbn. by rewrite printed_nil.
Qed.

Lemma read_only_print (line : string) : read_only (TypeChecker.print line).
Proof. by apply (read_only_intro _ (fun _ => ([line], Ok tt))). Qed.

Lemma read_only_bind {A B} (m : M checker A) (k : A -> M checker B) :
  read_only m -> (forall x, read_only (k x)) -> read_only (bind m k).
Proof.
  intros Hm Hk.
  apply (read_only_intro _
           (fun a => match outcome_on a m with
                     | Ok x => ((output_on a m ++ output_on a (k x))%list,
                                outcome_on a (k x))
                     | Raise e => (output_on a m, Raise e)
                     end)).
  intros c. unfold bind. rewrite (Hm c).
  destruct (outcome_on (ANALYZER c) m) as [x|e]; [|reflexivity].
  rewrite (Hk x). cbn. by rewrite printed_printed.
Qed.

Lemma read_only_function_type_info :
  read_only TypeChecker.function_type_info.
Proof.
  apply (read_only_intro _ (fun a => ([], Ok (FUNCTION_TYPE_INFO a)))).
  intros c. cbn. by rewrite printed_nil.
Qed.

Lemma read_only_generics_type_info :
  read_only TypeChecker.generics_type_info.
Proof.
  apply (read_only_intro _ (fun a => ([], Ok (GENERICS_TYPE_INFO a)))).
  intros c. cbn. by rewrite printed_nil.
Qed.

Lemma read_only_variable_type_info :
  read_only TypeChecker.variable_type_info.
Proof.
  apply (read_only_intro _ (fun a => ([], Ok (VARIABLE_TYPE_INFO a)))).
  intros c. cbn. by rewrite printed_nil.
Qed.

Lemma read_only_index {X} (l : list X) (i : nat) :
  read_only (@index checker X l i).
Proof.
  unfold index. destruct (l !! i); [apply read_only_ret|apply read_only_raise].
Qed.

Lemma read_only_subscript {V} (d : gmap string V) (k : string) :
  read_only (@subscript checker V d k).
Proof.
  unfold subscript.
  destruct (d !! k); [apply read_only_ret|apply read_only_raise].
Qed.

Lemma read_only_for_each {X} (f : X -> M checker unit) (l : list X) :
  Forall (fun x => read_only (f x)) l -> read_only (for_each f l).
Proof.
  induction 1 as [|x l Hx _ IH]; cbn.
  - apply read_only_ret.
  - apply read_only_bind; [exact Hx|intros _; exact IH].
Qed.

Lemma read_only_for_enumerate_from {X} (f : nat -> X -> M checker unit)
      (l : list X) :
  (forall i x, read_only (f i x)) ->
  forall i, read_only (for_enumerate_from f i l).
Proof.
  intros Hf. induction l as [|x l IH]; intros i; cbn.
  - apply read_only_ret.
  - apply read_only_bind; [apply Hf|intros _; apply IH].
Qed.

End ReadOnly.

Create HintDb read_only.
#[local] Hint Resolve read_only_ret read_only_raise read_only_print
  read_only_function_type_info read_only_generics_type_info
  read_only_variable_type_info read_only_index read_only_subscript
  : read_only.

Ltac read_only_step :=
  lazymatch goal with
  | |- read_only (bind _ _) => apply read_only_bind; [|intros ?]
  | |- read_only (if ?b then _ else _) => destruct b
  | |- read_only (match ?x with _ => _ end) => destruct x
  | |- read_only (let _ := _ in _) => cbv zeta
  | |- _ => solve [auto with read_only]
  end.

Ltac read_only_tac := repeat read_only_step.

(** ** Types and tables *)

Lemma type_eqb_refl (t : type_str) : type_eqb t t = true.
Proof. apply String.eqb_refl. Qed.

Lemma type_eqb_text (a b : type_str) :
  type_eqb a b = true <-> type_text a = type_text b.
Proof. apply String.eqb_eq. Qed.

Lemma type_eqb_text_ne (a b : type_str) :
  type_eqb a b = false <-> type_text a <> type_text b.
Proof. apply String.eqb_neq. Qed.

Lemma in_keys_lookup {V} (name : string) (d : gmap string V) (v : V) :
  d !! name = Some v -> TypeChecker.in_keys name d = true.
Proof.
  intros H. unfold TypeChecker.in_keys. rewrite H.
  by apply bool_decide_eq_true_2.
Qed.

(** A registered generic parameter passes both membership tests of the
    checker, the one on the keys and the one on the values. *)
Lemma in_keys_registered (a : analyzer) (name : string) :
  registered_generic a name ->
  TypeChecker.in_keys name (GENERICS_TYPE_INFO a) = true.
Proof. apply in_keys_lookup. Qed.

Lemma in_values_registered (a : analyzer) (name : string) :
  registered_generic a name ->
  TypeChecker.in_values name (GENERICS_TYPE_INFO a) = true.
Proof.
  unfold registered_generic, TypeChecker.in_values. intros H.
  apply existsb_exists. exists (PyStr name). split.
  - apply list_elem_of_In, list_elem_of_fmap. exists (name, PyStr name).
    split; [reflexivity|]. by apply elem_of_map_to_list.
  - cbn. apply String.eqb_refl.
Qed.

(** ** The analyzer *)

Section AnalyzerProperties.
Import SemanticAnalyzer.

(** A completed analysis leaves the analyzer in the done state. *)
Lemma analyze_ok_done (root : cst_Module) (a0 a : analyzer) :
  analyze root a0 = (a, Ok tt) -> done a = true.
Proof.
  unfold analyze, bind.
  destruct (for_each _ root a0) as [a1 [[]|e]]; [|discriminate].
  cbn. intros [= <-]. reflexivity.
Qed.

(** The analysis has no [RuntimeError] among its failures. *)
Lemma analyze_never_runtime_error (root : cst_Module) :
  raises_only (fun e => e <> RuntimeError) (analyze root).
Proof.
  unfold analyze, _analyze_function_def, _analyze_simple_statement_line,
    eval_first_arg.
  repeat raises_only_step.
Qed.

(** An annotated assignment records the annotation under the target, the
    last one winning. *)
Lemma annotated_assignment_analysis (a : analyzer) (target annotation : string)
      (value : option expr) (more : list small_stmt) :
  _analyze_simple_statement_line (AnnAssign target annotation value :: more) a
  = (set_variable target (TypeName annotation) a, Ok tt).
Proof. reflexivity. Qed.

(** C8. What the analyzer does with a plain assignment.  A call of
    [TypeVar] with a string literal as its first argument registers the
    string under the first target; a call of any other function is passed
    over and nothing is recorded; an assignment whose right-hand side is
    not a call (an integer literal, say) is not passed over: reading the
    callee of the right-hand side fails with an [AttributeError] and the
    analysis stops there. *)
Theorem plain_assignment_analysis (a : analyzer) :
  (forall (key : string) (targets : list string) (s : string)
          (more_args : list expr) (more : list small_stmt),
      _analyze_simple_statement_line
        (Assign (key :: targets) (Call "TypeVar" (SimpleString s :: more_args))
           :: more) a
      = (set_generic key (PyStr s) a, Ok tt)) /\
  (forall (targets : list string) (func : string) (args : list expr)
          (more : list small_stmt),
      func <> "TypeVar" ->
      _analyze_simple_statement_line (Assign targets (Call func args) :: more) a
      = (a, Ok tt)) /\
  (forall (targets : list string) (value : expr) (more : list small_stmt),
      (forall func args, value <> Call func args) ->
      _analyze_simple_statement_line (Assign targets value :: more) a
      = (a, Raise AttributeError)).
Proof.
  repeat split.
  - intros targets func args more Hne.
    unfold _analyze_simple_statement_line. run_bind. cbv iota.
    by rewrite (proj2 (String.eqb_neq _ _) Hne).
  - intros targets value more Hne.
    destruct value; try reflexivity. by destruct (Hne func args).
Qed.

(** The program [x = 1]: the analysis raises, and so does the run. *)
Lemma plain_assignment_of_literal_raises :
  analyze [SimpleStatementLine [Assign ["x"] (Integer "1")]] init
  = (init, Raise AttributeError) /\
  run [SimpleStatementLine [Assign ["x"] (Integer "1")]]
  = Raise AttributeError.
Proof. split; reflexivity. Qed.

End AnalyzerProperties.

(** C6. A checker cannot be built on an analyzer that is not done: the
    construction raises [RuntimeError].  An analysis that completes leaves
    the analyzer done, so the construction that follows it succeeds; in
    [run], which analyzes and then constructs, the failure never shows. *)
Theorem checker_requires_done_analyzer :
  (forall a : analyzer,
      done a = false -> TypeChecker.init a = Raise RuntimeError) /\
  (forall (root : cst_Module) (a0 a : analyzer),
      SemanticAnalyzer.analyze root a0 = (a, Ok tt) ->
      done a = true /\
      TypeChecker.init a = Ok {| ANALYZER := a; stdout := [] |}) /\
  (forall root : cst_Module, run root <> Raise RuntimeError).
Proof.
  repeat split.
  - intros a Ha. unfold TypeChecker.init. by rewrite Ha.
  - by eapply analyze_ok_done.
  - apply analyze_ok_done in H. unfold TypeChecker.init. by rewrite H.
  - intros root. unfold run.
    destruct (SemanticAnalyzer.analyze root SemanticAnalyzer.init)
      as [a [[]|e]] eqn:Ha.
    + apply analyze_ok_done in Ha. unfold TypeChecker.init. by rewrite Ha.
    + apply analyze_never_runtime_error in Ha. congruence.
Qed.

Lemma checker_requires_done_analyzer_witness :
  TypeChecker.init SemanticAnalyzer.init = Raise RuntimeError /\
  SemanticAnalyzer.analyze generics_typed_ng SemanticAnalyzer.init
  = (generics_typed_ng_analyzer, Ok tt) /\
  done generics_typed_ng_analyzer = true /\
  TypeChecker.init generics_typed_ng_analyzer = Ok generics_typed_ng_checker.
Proof.
  split;
    [apply (proj1 checker_requires_done_analyzer); reflexivity|].
  assert (H : SemanticAnalyzer.analyze generics_typed_ng SemanticAnalyzer.init
              = (generics_typed_ng_analyzer, Ok tt))
    by (vm_compute; reflexivity).
  split; [exact H|].
  exact (proj1 (proj2 checker_requires_done_analyzer) _ _ _ H).
Defined.

(** ** The checker only reads the analyzer *)

Section CheckerReadOnly.
Import TypeChecker.

Lemma read_only__resolve_node (node : expr) : read_only (_resolve_node node).
Proof.
  induction node as [| | | |l IHl op r IHr]; cbn [_resolve_node];
    try solve [read_only_tac].
  unfold _check_and_resolve_binary_operation. read_only_tac; auto.
Qed.

Lemma read_only__resolve_return (value : option expr) :
  read_only (_resolve_return value).
Proof.
  destruct value; cbn; [apply read_only__resolve_node|apply read_only_ret].
Qed.

Lemma read_only_call_of (node : small_stmt) : read_only (call_of node).
Proof. unfold call_of. read_only_tac. Qed.

Lemma read_only_target_of (node : small_stmt) : read_only (target_of node).
Proof. unfold target_of. read_only_tac. Qed.

Lemma read_only__check_args (node : small_stmt) : read_only (_check_args node).
Proof.
  unfold _check_args.
  apply read_only_bind; [apply read_only_call_of|intros call].
  read_only_tac.
  apply read_only_for_enumerate_from. intros i arg.
  unfold check_argument. read_only_tac.
Qed.

Lemma read_only_generic_actual_type (annotated_return : type_str)
      (typed_args : list expr) (annotated_args : list (string * type_str)) :
  forall i actual_type,
    read_only (generic_actual_type annotated_return typed_args i
                 annotated_args actual_type).
Proof.
  induction annotated_args as [|annotation rest IH]; intros i actual_type;
    cbn [generic_actual_type].
  - apply read_only_ret.
  - destruct (type_eqb annotation.2 annotated_return); [|apply IH].
    apply read_only_bind; [apply read_only_index|intros arg; apply IH].
Qed.

Lemma read_only__check_return (node : small_stmt) :
  read_only (_check_return node).
Proof.
  unfold _check_return.
  apply read_only_bind; [apply read_only_call_of|intros call].
  pose proof read_only_generic_actual_type.
  pose proof read_only_target_of.
  read_only_tac; auto.
Qed.

Lemma read_only__check_call (node : small_stmt) : read_only (_check_call node).
Proof.
  unfold _check_call. apply read_only_bind;
    [apply read_only__check_args|intros _; apply read_only__check_return].
Qed.

Lemma read_only__check_assignment (target annotation : string)
      (value : option expr) :
  read_only (_check_assignment target annotation value).
Proof.
  unfold _check_assignment. pose proof read_only__check_call.
  read_only_tac; auto.
Qed.

Lemma read_only__check_simple_statement_line (node : list small_stmt) :
  read_only (_check_simple_statement_line node).
Proof.
  unfold _check_simple_statement_line.
  pose proof read_only__check_assignment. pose proof read_only__check_call.
  read_only_tac; auto.
Qed.

Lemma read_only_first_return_type (body : list stmt) :
  read_only (first_return_type body).
Proof.
  induction body as [|node rest IH]; cbn [first_return_type].
  - apply read_only_ret.
  - pose proof read_only__resolve_return. read_only_tac; auto.
Qed.

Lemma read_only__check_function_return (function_name : string)
      (body : suite) :
  read_only (_check_function_return function_name body).
Proof.
  unfold _check_function_return. pose proof read_only_first_return_type.
  read_only_tac; auto.
Qed.

Lemma read_only_check_node : forall node : stmt, read_only (check_node node).
Proof.
  fix IH 1. intros [l|name params body returns|test body|name body];
    cbn [check_node].
  - apply read_only__check_simple_statement_line.
  - apply read_only_bind.
    + destruct body as [l|l]; apply read_only_for_each.
      * induction l as [|node l IHl]; constructor; [apply IH|exact IHl].
      * induction l as [|s l IHl]; constructor;
          [apply read_only_raise|exact IHl].
    + intros _. apply read_only__check_function_return.
  - apply read_only_raise.
  - apply read_only_raise.
Qed.

Lemma read_only_check (root : cst_Module) : read_only (check root).
Proof.
  unfold check. apply read_only_for_each.
  induction root; constructor; [apply read_only_check_node|assumption].
Qed.

End CheckerReadOnly.

(** C10. Checking is idempotent.  On a tree whose analysis completed, with
    a checker built on that analyzer, a first [check] prints some lines
    [out] and ends with an outcome [r]; a second [check] of the same tree
    with the same checker prints the same lines [out] again and ends with
    the same outcome.  Neither run touches the analyzer. *)
Theorem check_twice_same_output (root : cst_Module) (a0 a : analyzer) (c : checker) :
  SemanticAnalyzer.analyze root a0 = (a, Ok tt) ->
  TypeChecker.init a = Ok c ->
  exists (out : list string) (r : result unit),
    TypeChecker.check root c = (printed c out, r) /\
    TypeChecker.check root (printed c out) = (printed (printed c out) out, r).
Proof.
  intros _ _.
  exists (output_on (ANALYZER c) (TypeChecker.check root)),
         (outcome_on (ANALYZER c) (TypeChecker.check root)).
  split; [apply read_only_check|].
  apply (read_only_check root (printed c _)).
Qed.

Lemma check_twice_same_output_witness :
  SemanticAnalyzer.analyze generics_typed_ng SemanticAnalyzer.init
  = (generics_typed_ng_analyzer, Ok tt) /\
  TypeChecker.init generics_typed_ng_analyzer = Ok generics_typed_ng_checker /\
  exists (out : list string) (r : result unit),
    TypeChecker.check generics_typed_ng generics_typed_ng_checker
    = (printed generics_typed_ng_checker out, r) /\
    TypeChecker.check generics_typed_ng (printed generics_typed_ng_checker out)
    = (printed (printed generics_typed_ng_checker out) out, r).
Proof.
  assert (H1 : SemanticAnalyzer.analyze generics_typed_ng SemanticAnalyzer.init
               = (generics_typed_ng_analyzer, Ok tt))
    by (vm_compute; reflexivity).
  assert (H2 : TypeChecker.init generics_typed_ng_analyzer
               = Ok generics_typed_ng_checker) by (vm_compute; reflexivity).
  split; [exact H1|]. split; [exact H2|].
  exact (check_twice_same_output _ _ _ _ H1 H2).
Defined.

(** On the case file the two runs print the same single line. *)
Lemma generics_typed_ng_checked_twice :
  stdout (fst (TypeChecker.check generics_typed_ng
                 (fst (TypeChecker.check generics_typed_ng
                         generics_typed_ng_checker))))
  = [assignment_error_tmpl "int" "str"; assignment_error_tmpl "int" "str"].
Proof. vm_compute. reflexivity. Qed.

(** ** Statements *)

Section CheckerProperties.
Import TypeChecker.

Lemma check_cons (node : stmt) (rest : cst_Module) :
  check (node :: rest) = (check_node node ;;; check rest).
Proof. reflexivity. Qed.

Lemma check_app (before after : cst_Module) (c : checker) :
  check (before ++ after)%list c = (check before ;;; check after) c.
Proof.
  revert c. induction before as [|node before IH]; intros c; [reflexivity|].
  change (check ((node :: before) ++ after)%list)
    with (check_node node ;;; check (before ++ after)%list).
  rewrite check_cons. unfold bind.
  destruct (check_node node c) as [c' [[]|e]]; [|reflexivity].
  rewrite IH. reflexivity.
Qed.

(** C7, as the code has it.  At the top level, [check] fails fast with the
    unsupported-construct error on a compound statement that is not a
    function definition (an [if], a class), once the statements before it
    are checked.  A simple statement line is never refused: when its
    first small statement is neither an annotated assignment nor a call
    standing as a statement (a plain assignment, a [return], an import,
    [pass], an expression that is not a call), the line is passed over,
    nothing is printed for it, and the check goes on with the statements
    that follow, as if the line were not there. *)
Theorem check_top_level_dispatch (c : checker) :
  (forall (before : cst_Module) (node : stmt) (after : cst_Module) (c' : checker),
      other_compound node = true ->
      check before c = (c', Ok tt) ->
      check (before ++ node :: after)%list c = (c', Raise NotImplementedError)) /\
  (forall (before : cst_Module) (s : small_stmt) (more : list small_stmt)
          (after : cst_Module),
      checked_small s = false ->
      check (before ++ SimpleStatementLine (s :: more) :: after)%list c
      = check (before ++ after)%list c).
Proof.
  split.
  - intros before node after c' Hnode Hbefore.
    rewrite check_app. run_bind.
    destruct node; try discriminate; reflexivity.
  - intros before s more after Hs. rewrite !check_app. unfold bind at 1 2.
    destruct (check before c) as [c' [[]|e]]; [|reflexivity].
    rewrite check_cons. unfold bind.
    destruct s as [| | |[]| |]; try discriminate; reflexivity.
Qed.

(** A program of an import and a plain assignment, two top-level
    statements of other kinds than the three: the run completes and
    prints nothing. *)
Lemma check_skips_import_and_plain_assignment :
  report (run [ SimpleStatementLine [ImportFrom];
                SimpleStatementLine
                  [Assign ["T"] (Call "TypeVar" [SimpleString "T"])] ])
  = Ok ([], Ok tt).
Proof. vm_compute. reflexivity. Qed.

(** C4. An annotated assignment of an integer literal to a variable whose
    recorded type is [T] prints a diagnostic exactly when [T] is not
    ["int"]; the diagnostic is the assignment one, with ["int"] as the
    actual type and [T] as the declared one. *)
Theorem int_literal_assignment (c : checker) (v annotation n : string)
        (T : type_str) (more : list small_stmt) :
  VARIABLE_TYPE_INFO (ANALYZER c) !! v = Some T ->
  (type_text T = "int" ->
   check_node (SimpleStatementLine
                 (AnnAssign v annotation (Some (Integer n)) :: more)) c
   = (c, Ok tt)) /\
  (type_text T <> "int" ->
   check_node (SimpleStatementLine
                 (AnnAssign v annotation (Some (Integer n)) :: more)) c
   = (printed c [assignment_error_tmpl "int" (type_text T)], Ok tt)).
Proof.
  intros HT.
  assert (H : check_node (SimpleStatementLine
                 (AnnAssign v annotation (Some (Integer n)) :: more)) c
              = (if type_eqb T INT_TYPE then c
                 else printed c [assignment_error_tmpl "int" (type_text T)],
                 Ok tt)).
  { transitivity (_check_assignment v annotation (Some (Integer n)) c);
      [reflexivity|].
    unfold _check_assignment. rewrite (bind_ok _ _ c
      (if type_eqb T INT_TYPE then c
       else printed c [assignment_error_tmpl "int" (type_text T)]) tt);
      [reflexivity|].
    do 2 run_bind. by destruct (type_eqb T INT_TYPE). }
  rewrite H. split; intros Hd.
  - by rewrite (proj2 (type_eqb_text T INT_TYPE) Hd).
  - by rewrite (proj2 (type_eqb_text_ne T INT_TYPE) Hd).
Qed.

Lemma int_literal_assignment_witness :
  VARIABLE_TYPE_INFO (ANALYZER generics_typed_ng_checker) !! "copy_x"
  = Some (TypeName "str") /\
  check_node (SimpleStatementLine [AnnAssign "copy_x" "str" (Some (Integer "2"))])
    generics_typed_ng_checker
  = (printed generics_typed_ng_checker [assignment_error_tmpl "int" "str"],
     Ok tt).
Proof.
  assert (H : VARIABLE_TYPE_INFO (ANALYZER generics_typed_ng_checker) !! "copy_x"
              = Some (TypeName "str")) by (vm_compute; reflexivity).
  split; [exact H|].
  apply (int_literal_assignment generics_typed_ng_checker "copy_x" "str" "2"
           (TypeName "str") [] H).
  discriminate.
Defined.

(** The binary operation as line 234 has it, with the test for the
    universal type by identity.  The operands resolve to [left_type] and
    [right_type].  If either is the constant [ANY_TYPE] itself, the
    operation resolves to [ANY_TYPE] and prints nothing of its own.  If
    neither is and the two types have the same name, it prints nothing of
    its own and resolves to that type.  If neither is and the names
    differ, it prints one operator diagnostic and resolves to the type of
    the left operand; a type that is only named ["any"] falls here.
    ([c2] is the checker once the operands are resolved: what they
    printed themselves is in it.) *)
Theorem binary_operation_resolution
        (node_left node_right : expr) (node_operator : binop)
        (c c1 c2 : checker) (left_type right_type : type_str) :
  _resolve_node node_left c = (c1, Ok left_type) ->
  _resolve_node node_right c1 = (c2, Ok right_type) ->
  (left_type = ANY_TYPE \/ right_type = ANY_TYPE ->
   _resolve_node (BinaryOperation node_left node_operator node_right) c
   = (c2, Ok ANY_TYPE)) /\
  (left_type <> ANY_TYPE -> right_type <> ANY_TYPE ->
   type_text left_type = type_text right_type ->
   _resolve_node (BinaryOperation node_left node_operator node_right) c
   = (c2, Ok left_type)) /\
  (left_type <> ANY_TYPE -> right_type <> ANY_TYPE ->
   type_text left_type <> type_text right_type ->
   _resolve_node (BinaryOperation node_left node_operator node_right) c
   = (printed c2 [operand_error_tmpl
                    (type_text (_resolve_operator node_operator))
                    (type_text left_type) (type_text right_type)],
      Ok left_type)).
Proof.
  intros Hl Hr. cbn [_resolve_node].
  unfold _check_and_resolve_binary_operation. do 2 run_bind.
  repeat split.
  - intros [-> | ->]; [reflexivity|]. by rewrite orb_true_r.
  - intros Hnl Hnr Heq.
    destruct left_type, right_type; try congruence. cbn [is_ANY_TYPE orb].
    by rewrite (proj2 (type_eqb_text _ _) Heq).
  - intros Hnl Hnr Hne.
    destruct left_type, right_type; try congruence. cbn [is_ANY_TYPE orb].
    by rewrite (proj2 (type_eqb_text_ne _ _) Hne).
Qed.

Lemma binary_operation_resolution_witness :
  _resolve_node (Integer "1") generics_typed_ng_checker
  = (generics_typed_ng_checker, Ok INT_TYPE) /\
  _resolve_node (SimpleString "a") generics_typed_ng_checker
  = (generics_typed_ng_checker, Ok STR_TYPE) /\
  _resolve_node (BinaryOperation (Integer "1") Add (SimpleString "a"))
    generics_typed_ng_checker
  = (printed generics_typed_ng_checker [operand_error_tmpl "+" "int" "str"],
     Ok INT_TYPE).
Proof.
  repeat (split; [reflexivity|]).
  apply (binary_operation_resolution (Integer "1") (SimpleString "a") Add
           generics_typed_ng_checker generics_typed_ng_checker
           generics_typed_ng_checker INT_TYPE STR_TYPE eq_refl eq_refl);
    discriminate.
Defined.

(** Every expression the checker resolves without a table lookup gives
    the constant itself, and so does a function without a return
    annotation. *)
Lemma unannotated_return_is_ANY_TYPE (returns : option string) :
  SemanticAnalyzer._analyze_annotation returns = ANY_TYPE <-> returns = None.
Proof. destruct returns; cbn; split; congruence. Qed.

(** C3.  An operand that resolves to ["any"] should make the operation
    resolve to ["any"] without an operator diagnostic.  The code does so
    for the constant [ANY_TYPE] only: line 234 tests [is ANY_TYPE], where
    the other tests of the checker compare with [==].  A return
    annotation spelled [any] is a string of the syntax tree, not the
    constant, so for [def h() -> any] the operation [h() + 1] is
    reported, with ["any"] and ["int"] as the operand types. *)
Lemma any_annotation_operand_report :
  report (run any_annotation_operand)
  = Ok ([operand_error_tmpl "+" "any" "int"], Ok tt).
Proof. vm_compute. reflexivity. Qed.

End CheckerProperties.

(** ** Calls *)

Section CallProperties.
Import TypeChecker.

(** The two tests that make [check_argument] pass over an argument. *)
Lemma check_argument_skip (c : checker) (func_name : string) (sig : signature)
      (i : nat) (param : string) (annotated_type : type_str) (arg : expr) :
  FUNCTION_TYPE_INFO (ANALYZER c) !! func_name = Some sig ->
  sig_args sig !! i = Some (param, annotated_type) ->
  type_eqb annotated_type ANY_TYPE = true
  \/ in_values (type_text annotated_type) (GENERICS_TYPE_INFO (ANALYZER c))
     = true ->
  check_argument func_name i arg c = (c, Ok tt).
Proof.
  intros Hf Hi Ht. unfold check_argument. do 4 run_bind. cbn [snd].
  destruct Ht as [->| ->]; [reflexivity|].
  by destruct (type_eqb annotated_type ANY_TYPE).
Qed.

(** C5. The argument at position [i] of a call to a known function, when
    the parameter at that position is declared ["any"] or with a
    registered generic parameter: its check prints nothing and raises
    nothing, whatever the argument is, and the loop over the arguments
    goes on with the next position as if the argument were not there. *)
Theorem argument_check_skips_any_and_generic
        (c : checker) (func_name : string) (sig : signature) (i : nat)
        (param : string) (annotated_type : type_str)
        (arg : expr) (later_args : list expr) :
  FUNCTION_TYPE_INFO (ANALYZER c) !! func_name = Some sig ->
  sig_args sig !! i = Some (param, annotated_type) ->
  type_text annotated_type = "any"
  \/ registered_generic (ANALYZER c) (type_text annotated_type) ->
  check_argument func_name i arg c = (c, Ok tt) /\
  for_enumerate_from (check_argument func_name) i (arg :: later_args) c
  = for_enumerate_from (check_argument func_name) (S i) later_args c.
Proof.
  intros Hf Hi Ht.
  assert (H : check_argument func_name i arg c = (c, Ok tt)).
  { apply (check_argument_skip c func_name sig i param annotated_type);
      [exact Hf|exact Hi|].
    destruct Ht as [Ht|Ht].
    - left. by apply type_eqb_text.
    - right. by apply in_values_registered. }
  split; [exact H|]. cbn [for_enumerate_from]. by run_bind.
Qed.

Lemma argument_check_skips_any_and_generic_witness :
  FUNCTION_TYPE_INFO (ANALYZER generics_typed_ng_checker) !! "f"
  = Some {| sig_args := [("x", TypeName "T")]; sig_return := TypeName "T" |} /\
  registered_generic (ANALYZER generics_typed_ng_checker) "T" /\
  check_argument "f" 0 (SimpleString "a") generics_typed_ng_checker
  = (generics_typed_ng_checker, Ok tt).
Proof.
  assert (H1 : FUNCTION_TYPE_INFO (ANALYZER generics_typed_ng_checker) !! "f"
               = Some {| sig_args := [("x", TypeName "T")];
                         sig_return := TypeName "T" |})
    by (vm_compute; reflexivity).
  assert (H2 : registered_generic (ANALYZER generics_typed_ng_checker) "T")
    by (vm_compute; reflexivity).
  repeat (split; [assumption|]).
  exact (proj1 (argument_check_skips_any_and_generic generics_typed_ng_checker
                  "f" _ 0 "x" (TypeName "T") (SimpleString "a") []
                  H1 eq_refl (or_intror H2))).
Defined.

(** The argument check looks a generic parameter up among the declared
    names, the values of the registry, where the return check looks it
    up among the keys.  With [T = TypeVar("U")] the two differ: the
    parameter [x: T] is checked against the literal. *)
Lemma declared_name_differs_report :
  report (run declared_name_differs)
  = Ok ([arg_type_error_tmpl 1 "f" "int" "T"], Ok tt).
Proof. vm_compute. reflexivity. Qed.

(** The scan for the generic type leaves the checker alone; it ends with
    a type or with an [IndexError]. *)
Lemma generic_actual_type_outcome (annotated_return : type_str)
      (typed_args : list expr) (annotated_args : list (string * type_str))
      (c : checker) :
  forall i actual_type,
    (exists t, generic_actual_type annotated_return typed_args i
                 annotated_args actual_type c = (c, Ok t))
    \/ generic_actual_type annotated_return typed_args i
         annotated_args actual_type c = (c, Raise IndexError).
Proof.
  induction annotated_args as [|annotation rest IH]; intros i actual_type;
    cbn [generic_actual_type].
  - left. by eexists.
  - destruct (type_eqb annotation.2 annotated_return); [|apply IH].
    unfold bind, index. destruct (typed_args !! i); cbn; [apply IH|by right].
Qed.

(** Parameters that are not annotated with the generic type are passed
    over. *)
Lemma generic_actual_type_other (annotated_return : type_str)
      (typed_args : list expr) (annotated_args : list (string * type_str))
      (c : checker) :
  Forall (fun p => type_text p.2 <> type_text annotated_return) annotated_args ->
  forall i actual_type,
    generic_actual_type annotated_return typed_args i annotated_args
      actual_type c = (c, Ok actual_type).
Proof.
  induction 1 as [|annotation rest Hne _ IH]; intros i actual_type;
    cbn [generic_actual_type]; [reflexivity|].
  apply type_eqb_text_ne in Hne. rewrite Hne. apply IH.
Qed.

(** With an argument for every parameter of the generic type, the scan
    ends with a type. *)
Lemma generic_actual_type_in_range (annotated_return : type_str)
      (typed_args : list expr) (annotated_args : list (string * type_str))
      (c : checker) :
  forall i actual_type,
    (forall j p t, annotated_args !! j = Some (p, t) ->
                   type_text t = type_text annotated_return ->
                   i + j < length typed_args) ->
    exists t, generic_actual_type annotated_return typed_args i
                annotated_args actual_type c = (c, Ok t).
Proof.
  induction annotated_args as [|[p t] rest IH]; intros i actual_type Hin;
    cbn [generic_actual_type].
  - by eexists.
  - assert (Hrest : forall j p' t', rest !! j = Some (p', t') ->
                      type_text t' = type_text annotated_return ->
                      S i + j < length typed_args).
    { intros j p' t' Hj Ht. specialize (Hin (S j) p' t' Hj Ht). lia. }
    destruct (type_eqb (p, t).2 annotated_return) eqn:Heq; [|by apply IH].
    apply type_eqb_text in Heq. specialize (Hin 0 p t eq_refl Heq).
    unfold bind, index.
    destruct (typed_args !! i) as [arg|] eqn:Hi.
    + cbn. by apply IH.
    + apply lookup_ge_None in Hi. lia.
Qed.

(** C1. Generic resolution.  [T] is a registered generic parameter, the
    signature recorded for [f] has [T] as its return type and as the type
    of its first parameter and of no other, and ["str"] is the type
    recorded for [v].  Then for the statement [v: str = f(n)] with an
    integer literal [n], the scan of the parameters resolves the actual
    type of the call to ["int"], and checking the statement prints one
    line, the assignment diagnostic with actual ["int"] and declared
    ["str"]. *)
Theorem generic_call_assignment_mismatch
        (c : checker) (T f x v n : string) (rest : list (string * type_str)) :
  registered_generic (ANALYZER c) T ->
  FUNCTION_TYPE_INFO (ANALYZER c) !! f
  = Some {| sig_args := (x, TypeName T) :: rest; sig_return := TypeName T |} ->
  Forall (fun p => type_text p.2 <> T) rest ->
  VARIABLE_TYPE_INFO (ANALYZER c) !! v = Some (TypeName "str") ->
  generic_actual_type (TypeName T) [Integer n] 0 ((x, TypeName T) :: rest)
    ANY_TYPE c = (c, Ok INT_TYPE) /\
  check_node (SimpleStatementLine
                [AnnAssign v "str" (Some (Call f [Integer n]))]) c
  = (printed c [assignment_error_tmpl "int" "str"], Ok tt).
Proof.
  intros HT Hf Hrest Hv.
  assert (Hscan : generic_actual_type (TypeName T) [Integer n] 0
                    ((x, TypeName T) :: rest) ANY_TYPE c = (c, Ok INT_TYPE)).
  { cbn [generic_actual_type snd]. rewrite type_eqb_refl. run_bind.
    by apply generic_actual_type_other. }
  split; [exact Hscan|].
  assert (Hargs : _check_args (AnnAssign v "str" (Some (Call f [Integer n]))) c
                  = (c, Ok tt)).
  { unfold _check_args. do 2 run_bind.
    cbn [fst snd]. rewrite (in_keys_lookup _ _ _ Hf). cbn [negb].
    unfold for_enumerate. cbn [for_enumerate_from].
    rewrite (bind_ok _ _ c c tt); [reflexivity|].
    apply (check_argument_skip c f _ 0 x (TypeName T) (Integer n) Hf eq_refl).
    right. by apply in_values_registered. }
  transitivity (_check_call (AnnAssign v "str" (Some (Call f [Integer n]))) c);
    [reflexivity|].
  unfold _check_call. run_bind.
  unfold _check_return. do 2 run_bind. cbn [fst snd].
  rewrite (in_keys_lookup _ _ _ Hf). cbn [negb]. do 2 run_bind.
  cbn [sig_return sig_args type_text].
  rewrite (in_keys_registered _ _ HT). do 4 run_bind.
  reflexivity.
Qed.

Lemma generic_call_assignment_mismatch_witness :
  registered_generic (ANALYZER generics_typed_ng_checker) "T" /\
  FUNCTION_TYPE_INFO (ANALYZER generics_typed_ng_checker) !! "f"
  = Some {| sig_args := [("x", TypeName "T")]; sig_return := TypeName "T" |} /\
  VARIABLE_TYPE_INFO (ANALYZER generics_typed_ng_checker) !! "copy_x"
  = Some (TypeName "str") /\
  generic_actual_type (TypeName "T") [Integer "1"] 0 [("x", TypeName "T")]
    ANY_TYPE generics_typed_ng_checker
  = (generics_typed_ng_checker, Ok INT_TYPE) /\
  check_node (SimpleStatementLine
                [AnnAssign "copy_x" "str" (Some (Call "f" [Integer "1"]))])
    generics_typed_ng_checker
  = (printed generics_typed_ng_checker [assignment_error_tmpl "int" "str"],
     Ok tt).
Proof.
  assert (H1 : registered_generic (ANALYZER generics_typed_ng_checker) "T")
    by (vm_compute; reflexivity).
  assert (H2 : FUNCTION_TYPE_INFO (ANALYZER generics_typed_ng_checker) !! "f"
               = Some {| sig_args := [("x", TypeName "T")];
                         sig_return := TypeName "T" |})
    by (vm_compute; reflexivity).
  assert (H3 : VARIABLE_TYPE_INFO (ANALYZER generics_typed_ng_checker)
               !! "copy_x" = Some (TypeName "str"))
    by (vm_compute; reflexivity).
  repeat (split; [assumption|]).
  exact (generic_call_assignment_mismatch generics_typed_ng_checker
           "T" "f" "x" "copy_x" "1" [] H1 H2 ltac:(constructor) H3).
Defined.

(** The whole run on the case file prints that one line and completes. *)
Lemma generics_typed_ng_report :
  report (run generics_typed_ng)
  = Ok ([assignment_error_tmpl "int" "str"], Ok tt).
Proof. vm_compute. reflexivity. Qed.

(** The program of [g] and its call [g("a")]: the analysis completes, the
    check prints the argument diagnostic, and then the check raises
    [NotImplementedError]; it does not complete. *)
Lemma bare_call_run_does_not_complete :
  SemanticAnalyzer.analyze g_bare_call SemanticAnalyzer.init
  = (g_bare_call_analyzer, Ok tt) /\
  report (run g_bare_call)
  = Ok ([arg_type_error_tmpl 1 "g" "str" "int"], Raise NotImplementedError).
Proof. split; vm_compute; reflexivity. Qed.

(** With the definition of [g] on one line the analysis itself refuses
    the body. *)
Lemma g_bare_call_one_line_report :
  run g_bare_call_one_line = Raise NotImplementedError.
Proof. vm_compute. reflexivity. Qed.

(** C2, as the code has it.  [g] is recorded with one parameter of type
    ["int"] and the return type ["int"], and ["int"] is no generic
    parameter.  Checking the statement [g("a")], a call standing as a
    statement, prints one line, the argument diagnostic for position 1
    with actual ["str"] and declared ["int"], and then fails with the
    unsupported-construct error: the return check accepts a callee with a
    declared return type only under an annotated assignment or a
    [return]. *)
Theorem bare_call_concrete_return
        (c : checker) (g x s : string) (more : list small_stmt) :
  FUNCTION_TYPE_INFO (ANALYZER c) !! g
  = Some {| sig_args := [(x, TypeName "int")]; sig_return := TypeName "int" |} ->
  in_values "int" (GENERICS_TYPE_INFO (ANALYZER c)) = false ->
  in_keys "int" (GENERICS_TYPE_INFO (ANALYZER c)) = false ->
  check_node (SimpleStatementLine (Expr (Call g [SimpleString s]) :: more)) c
  = (printed c [arg_type_error_tmpl 1 g "str" "int"],
     Raise NotImplementedError).
Proof.
  intros Hg Hvalues Hkeys.
  set (node := Expr (Call g [SimpleString s])).
  assert (Hargs : _check_args node c
                  = (printed c [arg_type_error_tmpl 1 g "str" "int"], Ok tt)).
  { unfold _check_args. do 2 run_bind. cbn [fst snd].
    rewrite (in_keys_lookup _ _ _ Hg). cbn [negb].
    unfold for_enumerate. cbn [for_enumerate_from].
    rewrite (bind_ok _ _ c (printed c [arg_type_error_tmpl 1 g "str" "int"]) tt);
      [reflexivity|].
    unfold check_argument. do 4 run_bind. cbn [sig_args snd type_text].
    rewrite Hvalues. reflexivity. }
  transitivity (_check_call node c); [reflexivity|].
  unfold _check_call. run_bind.
  unfold _check_return. do 2 run_bind. cbn [fst snd ANALYZER printed].
  rewrite (in_keys_lookup _ _ _ Hg). cbn [negb].
  rewrite (bind_ok _ _ _ _ _ (subscript_ok _ _ _ _ Hg)). cbv beta zeta.
  run_bind. cbn [sig_return sig_args type_text ANALYZER printed].
  rewrite Hkeys. reflexivity.
Qed.

Lemma bare_call_concrete_return_witness :
  FUNCTION_TYPE_INFO (ANALYZER g_bare_call_checker) !! "g"
  = Some {| sig_args := [("x", TypeName "int")];
            sig_return := TypeName "int" |} /\
  in_values "int" (GENERICS_TYPE_INFO (ANALYZER g_bare_call_checker)) = false /\
  in_keys "int" (GENERICS_TYPE_INFO (ANALYZER g_bare_call_checker)) = false /\
  check_node (SimpleStatementLine [Expr (Call "g" [SimpleString "a"])])
    g_bare_call_checker
  = (printed g_bare_call_checker [arg_type_error_tmpl 1 "g" "str" "int"],
     Raise NotImplementedError).
Proof.
  assert (H1 : FUNCTION_TYPE_INFO (ANALYZER g_bare_call_checker) !! "g"
               = Some {| sig_args := [("x", TypeName "int")];
                         sig_return := TypeName "int" |})
    by (vm_compute; reflexivity).
  assert (H2 : in_values "int" (GENERICS_TYPE_INFO (ANALYZER g_bare_call_checker))
               = false) by (vm_compute; reflexivity).
  assert (H3 : in_keys "int" (GENERICS_TYPE_INFO (ANALYZER g_bare_call_checker))
               = false) by (vm_compute; reflexivity).
  repeat (split; [assumption|]).
  exact (bare_call_concrete_return g_bare_call_checker "g" "x" "a" [] H1 H2 H3).
Defined.

(** Without an argument for some parameter of the generic type, the scan
    ends with an [IndexError], at the first such parameter. *)
Lemma generic_actual_type_out_of_range (annotated_return : type_str)
      (typed_args : list expr) (annotated_args : list (string * type_str))
      (c : checker) :
  forall i actual_type,
    (exists j p t, annotated_args !! j = Some (p, t) /\
                   type_text t = type_text annotated_return /\
                   length typed_args <= i + j) ->
    generic_actual_type annotated_return typed_args i annotated_args
      actual_type c = (c, Raise IndexError).
Proof.
  induction annotated_args as [|[p0 t0] rest IH]; intros i actual_type
    (j & p & t & Hj & Ht & Hlen); [discriminate|].
  cbn [generic_actual_type snd].
  destruct (type_eqb t0 annotated_return) eqn:Heq.
  - unfold bind, index.
    destruct (typed_args !! i) as [arg|] eqn:Hi; [|reflexivity].
    cbn. apply IH. apply lookup_lt_Some in Hi.
    destruct j as [|j]; [lia|]. exists j, p, t. repeat split; [exact Hj|exact Ht|lia].
  - apply IH. destruct j as [|j].
    + injection Hj as -> ->. apply type_eqb_text_ne in Heq. contradiction.
    + exists j, p, t. repeat split; [exact Hj|exact Ht|lia].
Qed.

(** C9, as the code has it.  The return check of a call standing as a
    statement, to a function whose declared return type is a key of the
    generic registry.  It does not skip and prints nothing; it ends in a
    failure that is not the unsupported-construct error.  When the call
    has an argument for every parameter declared with the generic type,
    the failure is the [AttributeError] of reading the target of a
    statement that has none; when an argument is missing, the scan of the
    parameters fails before, with an [IndexError]. *)
Theorem bare_generic_call_return_check
        (c : checker) (f : string) (sig : signature) (args : list expr) :
  FUNCTION_TYPE_INFO (ANALYZER c) !! f = Some sig ->
  in_keys (type_text (sig_return sig)) (GENERICS_TYPE_INFO (ANALYZER c)) = true ->
  (_check_return (Expr (Call f args)) c = (c, Raise AttributeError)
   \/ _check_return (Expr (Call f args)) c = (c, Raise IndexError)) /\
  ((forall i p t, sig_args sig !! i = Some (p, t) ->
                  type_text t = type_text (sig_return sig) ->
                  i < length args) ->
   _check_return (Expr (Call f args)) c = (c, Raise AttributeError)) /\
  ((exists i p t, sig_args sig !! i = Some (p, t) /\
                  type_text t = type_text (sig_return sig) /\
                  length args <= i) ->
   _check_return (Expr (Call f args)) c = (c, Raise IndexError)).
Proof.
  intros Hf Hkey.
  assert (Hscan : forall r,
             generic_actual_type (sig_return sig) args 0 (sig_args sig)
               ANY_TYPE c = (c, r) ->
             _check_return (Expr (Call f args)) c
             = (c, match r with
                   | Ok _ => Raise AttributeError
                   | Raise e => Raise e
                   end)).
  { intros r Hr. unfold _check_return. do 2 run_bind. cbn [fst snd].
    rewrite (in_keys_lookup _ _ _ Hf). cbn [negb]. do 2 run_bind.
    rewrite Hkey. destruct r as [t|e].
    - do 2 run_bind. reflexivity.
    - run_bind. reflexivity. }
  split; [|split].
  - destruct (generic_actual_type_outcome (sig_return sig) args (sig_args sig)
                c 0 ANY_TYPE) as [[t Ht]|He].
    + left. exact (Hscan _ Ht).
    + right. exact (Hscan _ He).
  - intros Hin.
    destruct (generic_actual_type_in_range (sig_return sig) args (sig_args sig)
                c 0 ANY_TYPE) as [t Ht]; [exact Hin|].
    exact (Hscan _ Ht).
  - intros Hout.
    exact (Hscan _ (generic_actual_type_out_of_range (sig_return sig) args
                      (sig_args sig) c 0 ANY_TYPE Hout)).
Qed.

Lemma bare_generic_call_return_check_witness :
  FUNCTION_TYPE_INFO (ANALYZER generics_typed_ng_checker) !! "f"
  = Some {| sig_args := [("x", TypeName "T")]; sig_return := TypeName "T" |} /\
  in_keys "T" (GENERICS_TYPE_INFO (ANALYZER generics_typed_ng_checker)) = true /\
  _check_return (Expr (Call "f" [Integer "1"])) generics_typed_ng_checker
  = (generics_typed_ng_checker, Raise AttributeError) /\
  _check_return (Expr (Call "f" [])) generics_typed_ng_checker
  = (generics_typed_ng_checker, Raise IndexError).
Proof.
  assert (H1 : FUNCTION_TYPE_INFO (ANALYZER generics_typed_ng_checker) !! "f"
               = Some {| sig_args := [("x", TypeName "T")];
                         sig_return := TypeName "T" |})
    by (vm_compute; reflexivity).
  assert (H2 : in_keys "T" (GENERICS_TYPE_INFO (ANALYZER generics_typed_ng_checker))
               = true) by (vm_compute; reflexivity).
  repeat (split; [assumption|]).
  split.
  - apply (proj1 (proj2 (bare_generic_call_return_check
                           generics_typed_ng_checker "f" _ [Integer "1"]
                           H1 H2))).
    intros [|i] p t Hi _; [cbn; lia|]. destruct i; discriminate.
  - apply (proj2 (proj2 (bare_generic_call_return_check
                           generics_typed_ng_checker "f" _ [] H1 H2))).
    exists 0, "x", (TypeName "T"). repeat split. cbn. lia.
Defined.

(** The generic function called without its argument, in a statement of
    its own: the failure is an [IndexError], not an [AttributeError]. *)
Lemma bare_generic_call_without_argument :
  report (run generic_bare_call_no_argument) = Ok ([], Raise IndexError).
Proof. vm_compute. reflexivity. Qed.

End CallProperties.

(** ** Frames and failures of the two passes *)

Section Relates.
Context {St : Type} (R : St -> St -> Prop).
Hypothesis R_refl : forall s, R s s.
Hypothesis R_trans : forall s1 s2 s3, R s1 s2 -> R s2 s3 -> R s1 s3.

Lemma relates_ret {A} (x : A) : relates R (ret x).
Proof. intros s s' r [= <- _]. apply R_refl. Qed.

Lemma relates_raise {A} e : relates R (@raise St A e).
Proof. intros s s' r [= <- _]. apply R_refl. Qed.

Lemma relates_modify (f : St -> St) :
  (forall s, R s (f s)) -> relates R (modify f).
Proof. intros Hf s s' r [= <- _]. apply Hf. Qed.

Lemma relates_bind {A B} (m : M St A) (k : A -> M St B) :
  relates R m -> (forall x, relates R (k x)) -> relates R (bind m k).
Proof.
  intros Hm Hk s s' r. unfold bind.
  destruct (m s) as [s1 [x|e]] eqn:Hms.
  - intros Hk'. eapply R_trans; [eapply Hm, Hms|eapply Hk, Hk'].
  - intros [= <- _]. eapply Hm, Hms.
Qed.

Lemma relates_index {X} (l : list X) i : relates R (@index St X l i).
Proof.
  unfold index. destruct (l !! i); [apply relates_ret|apply relates_raise].
Qed.

Lemma relates_for_each {X} (f : X -> M St unit) (l : list X) :
  (forall x, relates R (f x)) -> relates R (for_each f l).
Proof.
  intros Hf. induction l as [|x l IH]; cbn.
  - apply relates_ret.
  - apply relates_bind; [apply Hf|intros _; exact IH].
Qed.

End Relates.

Ltac relates_step :=
  lazymatch goal with
  | |- relates _ (bind _ _) => apply relates_bind; [assumption| |intros ?]
  | |- relates _ (for_each _ _) =>
      apply relates_for_each; [assumption|assumption|intros ?]
  | |- relates _ (ret _) => apply relates_ret; assumption
  | |- relates _ (raise _) => apply relates_raise; assumption
  | |- relates _ (index _ _) => apply relates_index; assumption
  | |- relates _ (if ?b then _ else _) => destruct b
  | |- relates _ (match ?x with _ => _ end) => destruct x
  end.

Lemma tables_grow_refl a : tables_grow a a.
Proof. by repeat split. Qed.

Lemma tables_grow_trans a1 a2 a3 :
  tables_grow a1 a2 -> tables_grow a2 a3 -> tables_grow a1 a3.
Proof. intros (?&?&?) (?&?&?). repeat split; auto. Qed.

Section AnalyzerFrame.
Import SemanticAnalyzer.

Lemma tables_grow_set_generic k v a : tables_grow a (set_generic k v a).
Proof.
  repeat split; cbn; auto. intros k' H. apply lookup_insert_is_Some.
  destruct (decide (k = k')); auto.
Qed.

Lemma tables_grow_set_function k v a : tables_grow a (set_function k v a).
Proof.
  repeat split; cbn; auto. intros k' H. apply lookup_insert_is_Some.
  destruct (decide (k = k')); auto.
Qed.

Lemma tables_grow_set_variable k v a : tables_grow a (set_variable k v a).
Proof.
  repeat split; cbn; auto. intros k' H. apply lookup_insert_is_Some.
  destruct (decide (k = k')); auto.
Qed.

Lemma tables_grow_set_done a : tables_grow a (set_done a).
Proof. by repeat split. Qed.

Lemma relates_line (R : analyzer -> analyzer -> Prop) (l : list small_stmt) :
  (forall a, R a a) -> (forall a1 a2 a3, R a1 a2 -> R a2 a3 -> R a1 a3) ->
  (forall k v a, R a (set_generic k v a)) ->
  (forall k v a, R a (set_variable k v a)) ->
  relates R (_analyze_simple_statement_line l).
Proof.
  intros Hrefl Htrans Hg Hv.
  unfold _analyze_simple_statement_line, eval_first_arg.
  repeat first [ relates_step
               | apply relates_modify; intros ?; first [apply Hg|apply Hv] ].
Qed.

Lemma relates_function_def (R : analyzer -> analyzer -> Prop)
      name params body returns :
  (forall a, R a a) -> (forall a1 a2 a3, R a1 a2 -> R a2 a3 -> R a1 a3) ->
  (forall k v a, R a (set_generic k v a)) ->
  (forall k v a, R a (set_variable k v a)) ->
  (forall k v a, R a (set_function k v a)) ->
  relates R (_analyze_function_def name params body returns).
Proof.
  intros Hrefl Htrans Hg Hv Hf. unfold _analyze_function_def.
  apply relates_bind; [assumption| |intros _; apply relates_modify; apply Hf].
  destruct body; apply relates_for_each; try assumption; intros x.
  - destruct x; try (apply relates_raise; assumption).
    by apply relates_line.
  - by apply relates_raise.
Qed.

Lemma relates_analyze_loop (R : analyzer -> analyzer -> Prop) (root : cst_Module) :
  (forall a, R a a) -> (forall a1 a2 a3, R a1 a2 -> R a2 a3 -> R a1 a3) ->
  (forall k v a, R a (set_generic k v a)) ->
  (forall k v a, R a (set_variable k v a)) ->
  (forall k v a, R a (set_function k v a)) ->
  relates R
    (for_each (fun node =>
                 match node with
                 | SimpleStatementLine l => _analyze_simple_statement_line l
                 | FunctionDef name params body returns =>
                     _analyze_function_def name params body returns
                 | _ => raise NotImplementedError
                 end) root).
Proof.
  intros Hrefl Htrans Hg Hv Hf.
  apply relates_for_each; try assumption. intros node.
  destruct node; try (apply relates_raise; assumption).
  - by apply relates_line.
  - by apply relates_function_def.
Qed.

(** X2. The analysis never removes an entry: every key of the three
    tables before [analyze] is a key after it, whether it completes or
    raises. *)
Theorem analyze_tables_grow (root : cst_Module) (a0 : analyzer) :
  tables_grow a0 (fst (analyze root a0)).
Proof.
  destruct (analyze root a0) as [a r] eqn:Ha. cbn.
  revert Ha. apply (relates_bind tables_grow tables_grow_trans).
  - apply relates_analyze_loop;
      [ apply tables_grow_refl | apply tables_grow_trans
      | apply tables_grow_set_generic | apply tables_grow_set_variable
      | apply tables_grow_set_function ].
  - intros _. apply relates_modify. apply tables_grow_set_done.
Qed.

Lemma analyze_failure_keeps_done (root : cst_Module) (a0 a : analyzer) e :
  analyze root a0 = (a, Raise e) -> done a = done a0.
Proof.
  unfold analyze, bind.
  destruct (for_each _ root a0) as [a1 [[]|e1]] eqn:Hloop; [discriminate|].
  intros [= <- _]. revert Hloop.
  apply (relates_analyze_loop same_done); unfold same_done; try reflexivity.
  intros x y z. congruence.
Qed.

(** X1. An analysis that raises leaves the done flag as it was, so that no
    checker can be built on a fresh analyzer whose analysis failed: the
    construction raises [RuntimeError]. *)
Theorem failed_analysis_gives_no_checker (root : cst_Module) (a : analyzer) e :
  analyze root init = (a, Raise e) ->
  TypeChecker.init a = Raise RuntimeError.
Proof.
  intros H. apply analyze_failure_keeps_done in H.
  unfold TypeChecker.init. by rewrite H.
Qed.

End AnalyzerFrame.

Section AnalyzerRecords.
Import SemanticAnalyzer.

Lemma for_each_ok_targets {X} (f : X -> M analyzer unit)
      (targets : X -> list string) (l : list X) :
  (forall x, relates tables_grow (f x)) ->
  (forall x a a', f x a = (a', Ok tt) ->
                  forall t, In t (targets x) ->
                            is_Some (VARIABLE_TYPE_INFO a' !! t)) ->
  forall a a', for_each f l a = (a', Ok tt) ->
               forall t, In t (flat_map targets l) ->
                         is_Some (VARIABLE_TYPE_INFO a' !! t).
Proof.
  intros Hgrow Hstep. induction l as [|x l IH]; intros a a' Hrun t Ht;
    [destruct Ht|].
  cbn in Hrun. unfold bind in Hrun.
  destruct (f x a) as [a1 [[]|e]] eqn:Hx; [|discriminate].
  cbn in Ht. apply in_app_or in Ht. destruct Ht as [Ht|Ht].
  - assert (Hrest : tables_grow a1 a').
    { revert Hrun. apply relates_for_each;
        [apply tables_grow_refl|apply tables_grow_trans|exact Hgrow]. }
    apply Hrest. eapply Hstep; eassumption.
  - eapply IH; eassumption.
Qed.

Lemma line_records_target (l : list small_stmt) (a a' : analyzer) :
  _analyze_simple_statement_line l a = (a', Ok tt) ->
  forall t, In t (line_target l) -> is_Some (VARIABLE_TYPE_INFO a' !! t).
Proof.
  intros Hrun t Ht.
  destruct l as [|[| target annotation value | | | |] l];
    try (destruct Ht; fail).
  destruct Ht as [<-|[]]. cbn in Hrun. injection Hrun as <-. cbn.
  rewrite lookup_insert_eq. by eexists.
Qed.
End AnalyzerRecords.

Section AnalyzerTargets.
Import SemanticAnalyzer.

Lemma tables_grow_line (l : list small_stmt) :
  relates tables_grow (_analyze_simple_statement_line l).
Proof.
  apply relates_line;
    [ apply tables_grow_refl | apply tables_grow_trans
    | apply tables_grow_set_generic | apply tables_grow_set_variable ].
Qed.

Lemma tables_grow_function_def name params body returns :
  relates tables_grow (_analyze_function_def name params body returns).
Proof.
  apply relates_function_def;
    [ apply tables_grow_refl | apply tables_grow_trans
    | apply tables_grow_set_generic | apply tables_grow_set_variable
    | apply tables_grow_set_function ].
Qed.

Lemma function_def_records_targets name params body returns (a a' : analyzer) :
  _analyze_function_def name params body returns a = (a', Ok tt) ->
  forall t, In t (checked_targets_node (FunctionDef name params body returns)) ->
            is_Some (VARIABLE_TYPE_INFO a' !! t).
Proof.
  unfold _analyze_function_def, bind. intros Hrun t Ht.
  destruct body as [l|l]; [|destruct Ht].
  destruct (for_each _ l a) as [a1 [[]|e]] eqn:Hloop; [|discriminate].
  injection Hrun as <-. cbn [set_function VARIABLE_TYPE_INFO].
  revert t Ht. cbn [checked_targets_node].
  eapply for_each_ok_targets; [| |exact Hloop].
  - intros [l'| | |]; try (apply relates_raise; apply tables_grow_refl).
    apply tables_grow_line.
  - intros [l'| | |] b b' Hb t Ht; try discriminate.
    eapply line_records_target; eassumption.
Qed.

Lemma analyze_ok_targets (root : cst_Module) (a0 a : analyzer) :
  analyze root a0 = (a, Ok tt) ->
  forall t, In t (checked_targets root) -> is_Some (VARIABLE_TYPE_INFO a !! t).
Proof.
  unfold analyze, bind. intros Hrun t Ht.
  destruct (for_each _ root a0) as [a1 [[]|e]] eqn:Hloop; [|discriminate].
  injection Hrun as <-. cbn [set_done VARIABLE_TYPE_INFO].
  revert t Ht. unfold checked_targets.
  eapply for_each_ok_targets; [| |exact Hloop].
  - intros [l|name params body returns| |];
      try (apply relates_raise; apply tables_grow_refl).
    + apply tables_grow_line.
    + apply tables_grow_function_def.
  - intros [l|name params body returns| |] b b' Hb t Ht; try discriminate.
    + eapply line_records_target; eassumption.
    + eapply function_def_records_targets; eassumption.
Qed.

(** X6. After a completed analysis, the target of every annotated
    assignment that [check] looks up on the same tree, at the head of a
    line of the top level or of a function body, has a recorded type. *)
Theorem analyze_records_targets (root : cst_Module) (a0 a : analyzer) :
  SemanticAnalyzer.analyze root a0 = (a, Ok tt) ->
  Forall (fun t => is_Some (VARIABLE_TYPE_INFO a !! t)) (checked_targets root).
Proof.
  intros Hrun. apply Forall_forall. intros t Ht.
  apply (analyze_ok_targets root a0 a Hrun). by apply list_elem_of_In.
Qed.

End AnalyzerTargets.

Section Triples.
Context (a : analyzer) (P : exception -> Prop).

Lemma triple_ret {A} (Q : A -> Prop) (x : A) : Q x -> triple a P (ret x) Q.
Proof. intros HQ c Hc. by split. Qed.

Lemma triple_raise {A} (Q : A -> Prop) e : P e -> triple a P (raise e) Q.
Proof. intros HP c Hc. by split. Qed.

Lemma triple_print (line : string) :
  triple a P (TypeChecker.print line) (fun _ => True).
Proof. intros c Hc. by split. Qed.

Lemma triple_bind {A B} (m : M checker A) (k : A -> M checker B)
      (Q : A -> Prop) (Q' : B -> Prop) :
  triple a P m Q -> (forall x, Q x -> triple a P (k x) Q') ->
  triple a P (bind m k) Q'.
Proof.
  intros Hm Hk c Hc. unfold bind. destruct (Hm c Hc) as [Ha Hr].
  destruct (m c) as [c1 [x|e]]; cbn in *; [|by split].
  by apply Hk.
Qed.

Lemma triple_raise_bind {A B} (k : A -> M checker B) (Q : B -> Prop) e :
  P e -> triple a P (bind (raise e) k) Q.
Proof. intros HP c Hc. by split. Qed.

Lemma triple_ret_bind {A B} (x : A) (k : A -> M checker B) (Q : B -> Prop) :
  triple a P (k x) Q -> triple a P (bind (ret x) k) Q.
Proof. intros Hk c Hc. exact (Hk c Hc). Qed.

Lemma triple_weaken {A} (m : M checker A) (Q Q' : A -> Prop) :
  triple a P m Q -> (forall x, Q x -> Q' x) -> triple a P m Q'.
Proof.
  intros Hm HQ c Hc. destruct (Hm c Hc) as [Ha Hr]. split; [exact Ha|].
  destruct (snd (m c)); auto.
Qed.

Lemma triple_function_type_info :
  triple a P TypeChecker.function_type_info
         (fun info => info = FUNCTION_TYPE_INFO a).
Proof. intros c Hc. cbn. by rewrite Hc. Qed.

Lemma triple_generics_type_info :
  triple a P TypeChecker.generics_type_info
         (fun info => info = GENERICS_TYPE_INFO a).
Proof. intros c Hc. cbn. by rewrite Hc. Qed.

Lemma triple_variable_type_info :
  triple a P TypeChecker.variable_type_info
         (fun info => info = VARIABLE_TYPE_INFO a).
Proof. intros c Hc. cbn. by rewrite Hc. Qed.

Lemma triple_index {X} (l : list X) (i : nat) :
  P IndexError -> triple a P (index l i) (fun _ => True).
Proof.
  intros HP. unfold index.
  destruct (l !! i); [by apply triple_ret|by apply triple_raise].
Qed.

Lemma triple_subscript {V} (d : gmap string V) (k : string) :
  is_Some (d !! k) -> triple a P (subscript d k) (fun _ => True).
Proof. intros [v Hv]. unfold subscript. rewrite Hv. by apply triple_ret. Qed.

Lemma triple_for_each {X} (f : X -> M checker unit) (l : list X) :
  Forall (fun x => triple a P (f x) (fun _ => True)) l ->
  triple a P (for_each f l) (fun _ => True).
Proof.
  induction 1 as [|x l Hx _ IH]; cbn.
  - by apply triple_ret.
  - eapply triple_bind; [exact Hx|intros _ _; exact IH].
Qed.

Lemma triple_for_enumerate_from {X} (f : nat -> X -> M checker unit)
      (l : list X) :
  (forall i x, triple a P (f i x) (fun _ => True)) ->
  forall i, triple a P (for_enumerate_from f i l) (fun _ => True).
Proof.
  intros Hf. induction l as [|x l IH]; intros i; cbn.
  - by apply triple_ret.
  - eapply triple_bind; [apply Hf|intros _ _; apply IH].
Qed.

End Triples.

Ltac triple_step :=
  lazymatch goal with
  | |- triple _ _ (bind _ _) _ => eapply triple_bind; [|intros ? ?]
  | |- triple _ _ (ret _) _ => by apply triple_ret
  | |- triple _ _ (raise _) _ =>
      apply triple_raise; unfold checker_failure; auto
  | |- triple _ _ (TypeChecker.print _) _ => apply triple_print
  | |- triple _ _ TypeChecker.function_type_info _ =>
      apply triple_function_type_info
  | |- triple _ _ TypeChecker.generics_type_info _ =>
      apply triple_generics_type_info
  | |- triple _ _ TypeChecker.variable_type_info _ =>
      apply triple_variable_type_info
  | |- triple _ _ (index _ _) _ =>
      apply triple_index; unfold checker_failure; auto
  | |- triple _ _ (if ?b then _ else _) _ => destruct b eqn:?
  | |- triple _ _ (match ?x with _ => _ end) _ => destruct x eqn:?
  | |- triple _ _ (let _ := _ in _) _ => cbv zeta
  end.

Section CheckerFailures.
Import TypeChecker.
Context (a : analyzer).

#[local] Abbreviation safe m := (triple a checker_failure m (fun _ => True)).

Lemma in_keys_is_Some {V} (name : string) (d : gmap string V) :
  in_keys name d = true -> is_Some (d !! name).
Proof. unfold in_keys. apply bool_decide_eq_true_1. Qed.

Lemma negb_in_keys_false {V} (name : string) (d : gmap string V) :
  negb (in_keys name d) = false -> is_Some (d !! name).
Proof. intros H. apply in_keys_is_Some. by destruct (in_keys name d). Qed.

Lemma safe__resolve_node (node : expr) : safe (_resolve_node node).
Proof.
  induction node as [| | | |l IHl op r IHr]; cbn [_resolve_node];
    try solve [repeat triple_step].
  unfold _check_and_resolve_binary_operation. cbv zeta.
  eapply triple_bind; [exact IHl|intros ? _].
  eapply triple_bind; [exact IHr|intros ? _].
  repeat triple_step.
Qed.

Lemma safe__resolve_return (value : option expr) : safe (_resolve_return value).
Proof.
  destruct value; cbn; [apply safe__resolve_node|by apply triple_ret].
Qed.

Lemma safe_call_of (node : small_stmt) : safe (call_of node).
Proof. unfold call_of. repeat triple_step. Qed.

Lemma safe_check_argument (func_name : string) (i : nat) (arg : expr) :
  is_Some (FUNCTION_TYPE_INFO a !! func_name) ->
  safe (check_argument func_name i arg).
Proof.
  intros Hf. unfold check_argument.
  eapply triple_bind; [apply triple_function_type_info|intros info ->].
  eapply triple_bind; [eapply triple_subscript; eassumption|intros sig _].
  repeat triple_step.
Qed.

Lemma safe__check_args (node : small_stmt) : safe (_check_args node).
Proof.
  unfold _check_args.
  eapply triple_bind; [apply safe_call_of|intros call _]. cbv zeta.
  eapply triple_bind; [apply triple_function_type_info|intros info ->].
  destruct (negb _) eqn:Hin; [by apply triple_ret|].
  apply triple_for_enumerate_from. intros i arg.
  apply safe_check_argument. by apply negb_in_keys_false.
Qed.

Lemma safe_generic_actual_type (annotated_return : type_str)
      (typed_args : list expr) (annotated_args : list (string * type_str)) :
  forall i actual_type,
    safe (generic_actual_type annotated_return typed_args i annotated_args
            actual_type).
Proof.
  induction annotated_args as [|annotation rest IH]; intros i actual_type;
    cbn [generic_actual_type].
  - by apply triple_ret.
  - destruct (type_eqb annotation.2 annotated_return); [|apply IH].
    eapply triple_bind; [|intros arg _; apply IH].
    apply triple_index. unfold checker_failure. auto.
Qed.

Lemma safe__check_return (node : small_stmt) :
  (forall t, In t (line_target [node]) -> is_Some (VARIABLE_TYPE_INFO a !! t)) ->
  safe (_check_return node).
Proof.
  intros Htarget. unfold _check_return.
  eapply triple_bind; [apply safe_call_of|intros call _]. cbv zeta.
  eapply triple_bind; [apply triple_function_type_info|intros info ->].
  destruct (negb _) eqn:Hin; [by apply triple_ret|].
  apply negb_in_keys_false in Hin.
  eapply triple_bind; [eapply triple_subscript; eassumption|intros sig _].
  eapply triple_bind; [apply triple_generics_type_info|intros generics ->].
  destruct (in_keys _ _).
  - eapply triple_bind; [apply safe_generic_actual_type|intros actual _].
    destruct node; cbn [target_of];
      try (apply triple_raise_bind; unfold checker_failure; auto; fail).
    apply triple_ret_bind.
    eapply triple_bind; [apply triple_variable_type_info|intros ? ->].
    eapply triple_bind; [|intros ? _; repeat triple_step].
    apply triple_subscript. apply Htarget. by left.
  - destruct (negb _); [|by apply triple_ret].
    eapply triple_bind; [|intros ? _; repeat triple_step].
    destruct node; try (triple_step; fail).
    + eapply triple_bind; [apply triple_variable_type_info|intros ? ->].
      apply triple_subscript. apply Htarget. by left.
    + eapply triple_bind; [eapply triple_subscript; eassumption|intros ? _].
      by apply triple_ret.
Qed.

Lemma safe__check_call (node : small_stmt) :
  (forall t, In t (line_target [node]) -> is_Some (VARIABLE_TYPE_INFO a !! t)) ->
  safe (_check_call node).
Proof.
  intros H. unfold _check_call.
  eapply triple_bind; [apply safe__check_args|intros _ _].
  by apply safe__check_return.
Qed.

Lemma safe__check_simple_statement_line (node : list small_stmt) :
  (forall t, In t (line_target node) -> is_Some (VARIABLE_TYPE_INFO a !! t)) ->
  safe (_check_simple_statement_line node).
Proof.
  intros Htarget. unfold _check_simple_statement_line, index.
  destruct node as [|body more]; cbn [lookup list_lookup].
  { apply triple_raise_bind. unfold checker_failure. auto. }
  apply triple_ret_bind.
  destruct body as [|target annotation value| |[]| |];
    try by apply triple_ret.
  - unfold _check_assignment.
    apply (triple_bind a checker_failure _ _ (fun _ => True)).
    + destruct value as [[]|]; try by apply triple_ret.
      eapply triple_bind; [apply triple_variable_type_info|intros ? ->].
      eapply triple_bind; [|intros ? _; repeat triple_step].
      apply triple_subscript. apply Htarget. by left.
    + intros _ _. destruct value as [[]|]; try by apply triple_ret.
      apply safe__check_call. exact Htarget.
  - apply safe__check_call. intros t [].
Qed.

Lemma safe_first_return_type (body : list stmt) : safe (first_return_type body).
Proof.
  induction body as [|node rest IH]; cbn [first_return_type].
  - by apply triple_ret.
  - destruct node; try exact IH.
    eapply triple_bind; [triple_step|intros first _].
    destruct first; try exact IH. apply safe__resolve_return.
Qed.

Lemma safe__check_function_return (function_name : string) (body : suite) :
  safe (_check_function_return function_name body).
Proof.
  unfold _check_function_return.
  eapply triple_bind; [apply triple_function_type_info|intros info ->].
  destruct (negb _) eqn:Hin; [by apply triple_ret|].
  apply negb_in_keys_false in Hin.
  eapply triple_bind; [eapply triple_subscript; eassumption|intros sig _]. cbv zeta.
  eapply triple_bind; [|intros ? _; repeat triple_step].
  destruct body; [apply safe_first_return_type|by apply triple_ret].
Qed.

Lemma safe_check_node :
  forall node : stmt,
    (forall t, In t (checked_targets_node node) ->
               is_Some (VARIABLE_TYPE_INFO a !! t)) ->
    safe (check_node node).
Proof.
  fix IH 1. intros [l|name params body returns|test body|name body] Htargets;
    cbn [check_node].
  - by apply safe__check_simple_statement_line.
  - eapply triple_bind; [|intros _ _; apply safe__check_function_return].
    destruct body as [l|l]; apply triple_for_each.
    + cbn [checked_targets_node] in Htargets.
      induction l as [|node l IHl]; constructor.
      * apply IH. intros t Ht. apply Htargets. cbn. apply in_or_app. by left.
      * apply IHl. intros t Ht. apply Htargets. cbn. apply in_or_app. by right.
    + clear Htargets. induction l as [|s l IHl]; constructor; [|exact IHl].
      apply triple_raise. unfold checker_failure. auto.
  - apply triple_raise. unfold checker_failure. auto.
  - apply triple_raise. unfold checker_failure. auto.
Qed.

Lemma safe_check (root : cst_Module) :
  (forall t, In t (checked_targets root) -> is_Some (VARIABLE_TYPE_INFO a !! t)) ->
  safe (check root).
Proof.
  intros Htargets. unfold check. apply triple_for_each.
  unfold checked_targets in Htargets.
  induction root as [|node root IH]; constructor.
  - apply safe_check_node. intros t Ht. apply Htargets. cbn.
    apply in_or_app. by left.
  - apply IH. intros t Ht. apply Htargets. cbn. apply in_or_app. by right.
Qed.

End CheckerFailures.

(** X7. A check that follows the completed analysis of the same tree
    never fails on a missing table entry: if it raises, the exception is
    [NotImplementedError], [AttributeError] or [IndexError], never a
    [KeyError]. *)
Theorem check_after_analyze_failures
        (root : cst_Module) (a0 a : analyzer) (c c' : checker) (e : exception) :
  SemanticAnalyzer.analyze root a0 = (a, Ok tt) ->
  ANALYZER c = a ->
  TypeChecker.check root c = (c', Raise e) ->
  e = NotImplementedError \/ e = AttributeError \/ e = IndexError.
Proof.
  intros Ha Hc Hrun.
  destruct (safe_check a root (analyze_ok_targets root a0 a Ha) c Hc)
    as [_ Hr].
  rewrite Hrun in Hr. exact Hr.
Qed.

Section FunctionReturns.
Import TypeChecker.

(** X9. The return check of a function with a recorded signature, when
    the first [return] of its body resolves to [actual].  Nothing is
    printed when the declared return type or the actual one is named
    ["any"], or when the two have the same name; otherwise one
    return-value diagnostic is printed, with the actual type first and the
    declared one second.  ([c1] is the checker once the [return] is
    resolved.) *)
Theorem function_return_check
        (c c1 : checker) (function_name : string) (sig : signature)
        (body : list stmt) (actual : type_str) :
  FUNCTION_TYPE_INFO (ANALYZER c) !! function_name = Some sig ->
  first_return_type body c = (c1, Ok actual) ->
  (type_text (sig_return sig) = "any" \/ type_text actual = "any"
   \/ type_text (sig_return sig) = type_text actual ->
   _check_function_return function_name (IndentedBlock body) c = (c1, Ok tt)) /\
  (type_text (sig_return sig) <> "any" -> type_text actual <> "any" ->
   type_text (sig_return sig) <> type_text actual ->
   _check_function_return function_name (IndentedBlock body) c
   = (printed c1 [return_value_error_tmpl (type_text actual)
                    (type_text (sig_return sig))], Ok tt)).
Proof.
  intros Hf Hbody.
  assert (H : _check_function_return function_name (IndentedBlock body) c
              = (if type_eqb (sig_return sig) ANY_TYPE
                    || type_eqb actual ANY_TYPE
                 then ret tt
                 else if negb (type_eqb (sig_return sig) actual)
                      then print (return_value_error_tmpl (type_text actual)
                                    (type_text (sig_return sig)))
                      else ret tt) c1).
  { unfold _check_function_return. run_bind.
    rewrite (in_keys_lookup _ _ _ Hf). cbn [negb]. by do 2 run_bind. }
  rewrite H. split.
  - intros [Hany|[Hany|Heq]].
    + by rewrite (proj2 (type_eqb_text _ ANY_TYPE) Hany).
    + rewrite (proj2 (type_eqb_text actual ANY_TYPE) Hany).
      by rewrite orb_true_r.
    + rewrite (proj2 (type_eqb_text _ _) Heq).
      by destruct (_ || _).
  - intros H1 H2 H3.
    rewrite (proj2 (type_eqb_text_ne _ ANY_TYPE) H1).
    rewrite (proj2 (type_eqb_text_ne actual ANY_TYPE) H2).
    by rewrite (proj2 (type_eqb_text_ne _ _) H3).
Qed.

Lemma first_return_type_none (body : list stmt) (c : checker) :
  Forall line_without_return body ->
  first_return_type body c = (c, Ok ANY_TYPE).
Proof.
  induction 1 as [|node rest Hnode _ IH]; [reflexivity|].
  cbn [first_return_type].
  destruct node as [[|[] l]| | |]; try destruct Hnode; try exact IH.
Qed.

(** X10. A function whose body has no [return] at the head of a line, or
    whose body is a one-line suite, is never reported by the return
    check, whether its signature is recorded or not. *)
Theorem function_without_return_not_reported
        (c : checker) (function_name : string) (body : list stmt)
        (small : list small_stmt) :
  Forall line_without_return body ->
  _check_function_return function_name (IndentedBlock body) c = (c, Ok tt) /\
  _check_function_return function_name (SimpleStatementSuite small) c
  = (c, Ok tt).
Proof.
  intros Hbody.
  pose proof (first_return_type_none _ c Hbody) as Hnone.
  split; unfold _check_function_return; run_bind;
    (destruct (FUNCTION_TYPE_INFO (ANALYZER c) !! function_name)
       as [sig|] eqn:Hf;
     [ rewrite (in_keys_lookup _ _ _ Hf); cbn [negb]; repeat run_bind;
       rewrite type_eqb_refl, orb_true_r; reflexivity
     | unfold in_keys; rewrite Hf;
       rewrite bool_decide_eq_false_2; [reflexivity|by intros [? ?]] ]).
Qed.
End FunctionReturns.

Section CallChecks.
Import TypeChecker.

Lemma in_keys_None {V} (name : string) (d : gmap string V) :
  d !! name = None -> in_keys name d = false.
Proof.
  intros H. unfold in_keys. rewrite H.
  apply bool_decide_eq_false_2. by intros [? ?].
Qed.

Lemma unknown_callee_call (c : checker) (node : small_stmt) (f : string)
      (args : list expr) :
  FUNCTION_TYPE_INFO (ANALYZER c) !! f = None ->
  call_of node c = (c, Ok (f, args)) ->
  _check_call node c = (c, Ok tt).
Proof.
  intros Hf Hcall. unfold _check_call.
  rewrite (bind_ok _ _ c c tt).
  - unfold _check_return. do 2 run_bind. cbn [fst].
    by rewrite (in_keys_None _ _ Hf).
  - unfold _check_args. do 2 run_bind. cbn [fst].
    by rewrite (in_keys_None _ _ Hf).
Qed.

(** X11. A call to a function without a recorded signature is not
    checked: as the right-hand side of an annotated assignment or as a
    statement of its own it prints nothing and raises nothing, whatever
    its arguments and whether or not the target has a recorded type; as
    an operand it resolves to [ANY_TYPE]. *)
Theorem unknown_callee_not_checked
        (c : checker) (f v annotation : string) (args : list expr)
        (more : list small_stmt) :
  FUNCTION_TYPE_INFO (ANALYZER c) !! f = None ->
  check_node (SimpleStatementLine
                (AnnAssign v annotation (Some (Call f args)) :: more)) c
  = (c, Ok tt) /\
  check_node (SimpleStatementLine (Expr (Call f args) :: more)) c = (c, Ok tt) /\
  _resolve_node (Call f args) c = (c, Ok ANY_TYPE).
Proof.
  intros Hf. repeat split.
  - transitivity (_check_call (AnnAssign v annotation (Some (Call f args))) c);
      [reflexivity|]. by apply (unknown_callee_call c _ f args).
  - transitivity (_check_call (Expr (Call f args)) c); [reflexivity|].
    by apply (unknown_callee_call c _ f args).
  - cbn [_resolve_node]. run_bind. by rewrite Hf.
Qed.

(** X12. The check of an argument against a parameter whose declared
    type is not named ["any"] and is not among the declared generic
    names.  For an integer or string literal it prints nothing when the
    declared type has the literal's name (["int"], ["str"]), and otherwise
    one argument diagnostic with the 1-based position, the callee, the
    literal's type and the declared type.  Any other argument expression
    raises [NotImplementedError]. *)
Theorem literal_argument_check
        (c : checker) (func_name : string) (sig : signature) (i : nat)
        (param : string) (annotated_type : type_str) (arg : expr) :
  FUNCTION_TYPE_INFO (ANALYZER c) !! func_name = Some sig ->
  sig_args sig !! i = Some (param, annotated_type) ->
  type_text annotated_type <> "any" ->
  in_values (type_text annotated_type) (GENERICS_TYPE_INFO (ANALYZER c))
  = false ->
  match literal_type arg with
  | Some actual =>
      (type_text annotated_type = type_text actual ->
       check_argument func_name i arg c = (c, Ok tt)) /\
      (type_text annotated_type <> type_text actual ->
       check_argument func_name i arg c
       = (printed c [arg_type_error_tmpl (i + 1) func_name (type_text actual)
                       (type_text annotated_type)], Ok tt))
  | None => check_argument func_name i arg c = (c, Raise NotImplementedError)
  end.
Proof.
  intros Hf Hi Hany Hvalues.
  assert (H : check_argument func_name i arg c
              = match arg with
                | SimpleString _ =>
                    if negb (type_eqb annotated_type STR_TYPE)
                    then print (arg_type_error_tmpl (i + 1) func_name
                                  (type_text STR_TYPE) (type_text annotated_type))
                    else ret tt
                | Integer _ =>
                    if negb (type_eqb annotated_type INT_TYPE)
                    then print (arg_type_error_tmpl (i + 1) func_name
                                  (type_text INT_TYPE) (type_text annotated_type))
                    else ret tt
                | _ => raise NotImplementedError
                end c).
  { unfold check_argument. do 4 run_bind. cbn [snd].
    rewrite (proj2 (type_eqb_text_ne annotated_type ANY_TYPE) Hany).
    by rewrite Hvalues. }
  rewrite H.
  destruct arg; cbn [literal_type]; try reflexivity; split; intros Ht.
  - by rewrite (proj2 (type_eqb_text _ INT_TYPE) Ht).
  - by rewrite (proj2 (type_eqb_text_ne _ INT_TYPE) Ht).
  - by rewrite (proj2 (type_eqb_text _ STR_TYPE) Ht).
  - by rewrite (proj2 (type_eqb_text_ne _ STR_TYPE) Ht).
Qed.

(** X13. The return check under an annotated assignment [v: ... = f(...)],
    when the declared return type of [f] is no key of the generic
    registry and [declared] is the type recorded for [v].  Nothing is
    printed when the return type is named ["any"] or has the name of
    [declared]; otherwise one assignment diagnostic is printed, with the
    return type of [f] as the type of the expression and [declared] as
    the type of the variable. *)
Theorem concrete_return_assignment
        (c : checker) (f v annotation : string) (sig : signature)
        (args : list expr) (declared : type_str) :
  FUNCTION_TYPE_INFO (ANALYZER c) !! f = Some sig ->
  in_keys (type_text (sig_return sig)) (GENERICS_TYPE_INFO (ANALYZER c))
  = false ->
  VARIABLE_TYPE_INFO (ANALYZER c) !! v = Some declared ->
  (type_text (sig_return sig) = "any"
   \/ type_text declared = type_text (sig_return sig) ->
   _check_return (AnnAssign v annotation (Some (Call f args))) c = (c, Ok tt)) /\
  (type_text (sig_return sig) <> "any" ->
   type_text declared <> type_text (sig_return sig) ->
   _check_return (AnnAssign v annotation (Some (Call f args))) c
   = (printed c [assignment_error_tmpl (type_text (sig_return sig))
                   (type_text declared)], Ok tt)).
Proof.
  intros Hf Hkey Hv.
  assert (H : _check_return (AnnAssign v annotation (Some (Call f args))) c
              = (if negb (type_eqb (sig_return sig) ANY_TYPE)
                 then if negb (type_eqb declared (sig_return sig))
                      then print (assignment_error_tmpl
                                    (type_text (sig_return sig))
                                    (type_text declared))
                      else ret tt
                 else ret tt) c).
  { unfold _check_return. do 2 run_bind. cbn [fst snd].
    rewrite (in_keys_lookup _ _ _ Hf). cbn [negb]. do 2 run_bind.
    rewrite Hkey. destruct (negb (type_eqb (sig_return sig) ANY_TYPE));
      [|reflexivity].
    rewrite (bind_ok _ _ c c declared); [reflexivity|].
    run_bind. by apply subscript_ok. }
  rewrite H. split.
  - intros [Hany|Heq].
    + by rewrite (proj2 (type_eqb_text _ ANY_TYPE) Hany).
    + rewrite (proj2 (type_eqb_text _ _) Heq). by destruct (negb _).
  - intros Hany Hne.
    rewrite (proj2 (type_eqb_text_ne _ ANY_TYPE) Hany).
    by rewrite (proj2 (type_eqb_text_ne _ _) Hne).
Qed.

(** X14. A generic function [f(x: T) -> T] called with one argument that
    is not an integer literal: the argument check passes over it and the
    scan resolves the call to ["any"].  Checking [v: ... = f(arg)] then
    prints nothing when the type recorded for [v] is named ["any"], and
    otherwise one assignment diagnostic with ["any"] as the type of the
    expression. *)
Theorem generic_call_other_argument
        (c : checker) (T f x v annotation : string) (arg : expr)
        (declared : type_str) :
  registered_generic (ANALYZER c) T ->
  FUNCTION_TYPE_INFO (ANALYZER c) !! f
  = Some {| sig_args := [(x, TypeName T)]; sig_return := TypeName T |} ->
  VARIABLE_TYPE_INFO (ANALYZER c) !! v = Some declared ->
  (forall n, arg <> Integer n) ->
  (type_text declared = "any" ->
   check_node (SimpleStatementLine
                 [AnnAssign v annotation (Some (Call f [arg]))]) c
   = (c, Ok tt)) /\
  (type_text declared <> "any" ->
   check_node (SimpleStatementLine
                 [AnnAssign v annotation (Some (Call f [arg]))]) c
   = (printed c [assignment_error_tmpl "any" (type_text declared)], Ok tt)).
Proof.
  intros HT Hf Hv Harg.
  set (node := AnnAssign v annotation (Some (Call f [arg]))).
  assert (Hargs : _check_args node c = (c, Ok tt)).
  { unfold _check_args. do 2 run_bind.
    cbn [fst snd]. rewrite (in_keys_lookup _ _ _ Hf). cbn [negb].
    unfold for_enumerate. cbn [for_enumerate_from].
    rewrite (bind_ok _ _ c c tt); [reflexivity|].
    unfold check_argument. do 4 run_bind. cbn [sig_args snd type_text].
    rewrite (in_values_registered _ _ HT).
    by destruct (type_eqb (TypeName T) ANY_TYPE). }
  assert (Hscan : generic_actual_type (TypeName T) [arg] 0 [(x, TypeName T)]
                    ANY_TYPE c = (c, Ok ANY_TYPE)).
  { cbn [generic_actual_type snd]. rewrite type_eqb_refl. run_bind.
    destruct arg; try reflexivity. by destruct (Harg value). }
  assert (H : check_node (SimpleStatementLine [node]) c
              = (if negb (type_eqb declared ANY_TYPE)
                 then print (assignment_error_tmpl "any" (type_text declared))
                 else ret tt) c).
  { transitivity (_check_call node c); [reflexivity|].
    unfold _check_call. run_bind.
    unfold _check_return. do 2 run_bind. cbn [fst snd].
    rewrite (in_keys_lookup _ _ _ Hf). cbn [negb]. do 2 run_bind.
    cbn [sig_return sig_args type_text].
    rewrite (in_keys_registered _ _ HT). by do 4 run_bind. }
  rewrite H. split; intros Hd.
  - by rewrite (proj2 (type_eqb_text _ ANY_TYPE) Hd).
  - by rewrite (proj2 (type_eqb_text_ne _ ANY_TYPE) Hd).
Qed.
End CallChecks.

Section AnalyzerFailures.
Import SemanticAnalyzer.

Lemma same_functions_line (l : list small_stmt) :
  relates same_functions (_analyze_simple_statement_line l).
Proof.
  apply relates_line; unfold same_functions; try reflexivity.
  intros x y z. congruence.
Qed.

(** X4. A function definition whose body holds a statement that is not a
    simple statement line (a nested definition, an [if]) is refused: its
    analysis raises, and no signature is recorded, for this function or
    any other. *)
Theorem function_def_with_compound_statement
        (name : string) (params : list Param) (body : list stmt)
        (returns : option string) (a : analyzer) :
  Exists (fun node => forall l, node <> SimpleStatementLine l) body ->
  exists (a' : analyzer) (e : exception),
    _analyze_function_def name params (IndentedBlock body) returns a
    = (a', Raise e) /\
    FUNCTION_TYPE_INFO a' = FUNCTION_TYPE_INFO a.
Proof.
  intros Hbody. unfold _analyze_function_def.
  set (g := fun node : stmt =>
              match node with
              | SimpleStatementLine l => _analyze_simple_statement_line l
              | _ => raise NotImplementedError
              end).
  assert (Hloop : exists a' e, for_each g body a = (a', Raise e)
                               /\ same_functions a a').
  { revert a. induction Hbody as [node rest Hnode|node rest _ IH]; intros a.
    - exists a, NotImplementedError. split; [|reflexivity].
      destruct node as [l| | |]; try reflexivity. by destruct (Hnode l).
    - cbn [for_each]. unfold bind.
      destruct (g node a) as [a1 [[]|e]] eqn:Hg.
      + destruct (IH a1) as (a' & e & Hrun & Hsame).
        exists a', e. split; [exact Hrun|].
        unfold same_functions in *. rewrite Hsame.
        destruct node; try discriminate.
        exact (same_functions_line _ _ _ _ Hg).
      + exists a1, e. split; [reflexivity|].
        destruct node; try (injection Hg as <- _; reflexivity).
        exact (same_functions_line _ _ _ _ Hg). }
  destruct Hloop as (a' & e & Hrun & Hsame).
  exists a', e. split; [|exact Hsame]. by rewrite (bind_raise _ _ _ _ _ Hrun).
Qed.
End AnalyzerFailures.

Lemma for_each_app {St X} (f : X -> M St unit) (l1 l2 : list X) (s : St) :
  for_each f (l1 ++ l2)%list s = (for_each f l1 ;;; for_each f l2) s.
Proof.
  revert s. induction l1 as [|x l1 IH]; intros s; [reflexivity|].
  cbn [for_each app]. unfold bind.
  destruct (f x s) as [s1 [[]|e]]; [|reflexivity]. rewrite IH. reflexivity.
Qed.

Section LastStatement.
Import SemanticAnalyzer.

Lemma analyze_last (before : cst_Module) (node : stmt) (a0 a : analyzer) :
  analyze (before ++ [node])%list a0 = (a, Ok tt) ->
  exists a1,
    analyze before a0 = (set_done a1, Ok tt) /\
    analyze [node] a1 = (a, Ok tt).
Proof.
  unfold analyze. unfold bind at 1. rewrite for_each_app. unfold bind at 1.
  destruct (for_each _ before a0) as [a1 [[]|e]] eqn:Hbefore; [|discriminate].
  destruct (for_each _ [node] a1) as [a2 [[]|e]] eqn:Hnode; [|discriminate].
  intros Hrun. cbv [modify] in Hrun. injection Hrun as <-.
  exists a1. unfold bind. rewrite Hbefore, Hnode. by split.
Qed.

(** X5. What the tables hold for the last statement of a module whose
    analysis completes.  A function definition: its signature, the
    parameters in their order, each with its annotation or [ANY_TYPE]
    without one, and the return annotation likewise, whatever was
    recorded for that name before.  An annotated assignment: the
    annotation, under the target.  A [TypeVar] declaration with a string
    literal: the string, under the first target. *)
Theorem last_statement_is_recorded (before : cst_Module) (a0 a : analyzer) :
  (forall name params body returns,
      analyze (before ++ [FunctionDef name params body returns])%list a0
      = (a, Ok tt) ->
      FUNCTION_TYPE_INFO a !! name
      = Some {| sig_args :=
                  map (fun param =>
                         (param_name param,
                          _analyze_annotation (param_annotation param)))
                      params;
                sig_return := _analyze_annotation returns |}) /\
  (forall target annotation value more,
      analyze (before ++ [SimpleStatementLine
                            (AnnAssign target annotation value :: more)])%list a0
      = (a, Ok tt) ->
      VARIABLE_TYPE_INFO a !! target = Some (TypeName annotation)) /\
  (forall key targets s more_args more,
      analyze (before ++ [SimpleStatementLine
                            (Assign (key :: targets)
                               (Call "TypeVar" (SimpleString s :: more_args))
                               :: more)])%list a0
      = (a, Ok tt) ->
      GENERICS_TYPE_INFO a !! key = Some (PyStr s)).
Proof.
  repeat split.
  - intros name params body returns Hrun.
    apply analyze_last in Hrun as (a1 & _ & Hnode).
    unfold analyze in Hnode. cbn [for_each] in Hnode.
    unfold bind, _analyze_function_def in Hnode. unfold bind in Hnode.
    destruct body as [l|l];
      (destruct (for_each _ l a1) as [a3 [[]|e]]; [|discriminate]);
      cbn in Hnode; injection Hnode as <-; cbn; apply lookup_insert_eq.
  - intros target annotation value more Hrun.
    apply analyze_last in Hrun as (a1 & _ & Hnode).
    cbn in Hnode. injection Hnode as <-. cbn. apply lookup_insert_eq.
  - intros key targets s more_args more Hrun.
    apply analyze_last in Hrun as (a1 & _ & Hnode).
    cbn in Hnode. injection Hnode as <-. cbn. apply lookup_insert_eq.
Qed.
End LastStatement.

(** ** Instances *)

Lemma failed_analysis_gives_no_checker_witness :
  SemanticAnalyzer.analyze
    [ SimpleStatementLine [AnnAssign "v" "int" (Some (Integer "1"))];
      SimpleStatementLine [Assign ["x"] (Integer "1")] ]
    SemanticAnalyzer.init
  = (SemanticAnalyzer.set_variable "v" (TypeName "int") SemanticAnalyzer.init,
     Raise AttributeError) /\
  TypeChecker.init
    (SemanticAnalyzer.set_variable "v" (TypeName "int") SemanticAnalyzer.init)
  = Raise RuntimeError.
Proof.
  assert (H : SemanticAnalyzer.analyze
                [ SimpleStatementLine [AnnAssign "v" "int" (Some (Integer "1"))];
                  SimpleStatementLine [Assign ["x"] (Integer "1")] ]
                SemanticAnalyzer.init
              = (SemanticAnalyzer.set_variable "v" (TypeName "int")
                   SemanticAnalyzer.init, Raise AttributeError))
    by reflexivity.
  split; [exact H|]. exact (failed_analysis_gives_no_checker _ _ _ H).
Defined.

Lemma function_def_with_compound_statement_witness :
  Exists (fun node => forall l, node <> SimpleStatementLine l)
         nested_definition /\
  exists (a' : analyzer) (e : exception),
    SemanticAnalyzer._analyze_function_def "outer" []
      (IndentedBlock nested_definition) None SemanticAnalyzer.init
    = (a', Raise e) /\
    FUNCTION_TYPE_INFO a' = FUNCTION_TYPE_INFO SemanticAnalyzer.init.
Proof.
  assert (H : Exists (fun node => forall l, node <> SimpleStatementLine l)
                     nested_definition).
  { apply Exists_cons_tl, Exists_cons_hd. intros l. discriminate. }
  split; [exact H|].
  exact (function_def_with_compound_statement "outer" []
           nested_definition None SemanticAnalyzer.init H).
Defined.

Lemma analyze_records_targets_witness :
  SemanticAnalyzer.analyze generics_typed_ng SemanticAnalyzer.init
  = (generics_typed_ng_analyzer, Ok tt) /\
  Forall (fun t => is_Some (VARIABLE_TYPE_INFO generics_typed_ng_analyzer !! t))
         (checked_targets generics_typed_ng).
Proof.
  assert (H : SemanticAnalyzer.analyze generics_typed_ng SemanticAnalyzer.init
              = (generics_typed_ng_analyzer, Ok tt))
    by (vm_compute; reflexivity).
  split; [exact H|]. exact (analyze_records_targets _ _ _ H).
Defined.

Lemma check_after_analyze_failures_witness :
  SemanticAnalyzer.analyze g_bare_call SemanticAnalyzer.init
  = (g_bare_call_analyzer, Ok tt) /\
  ANALYZER g_bare_call_checker = g_bare_call_analyzer /\
  TypeChecker.check g_bare_call g_bare_call_checker
  = (printed g_bare_call_checker [arg_type_error_tmpl 1 "g" "str" "int"],
     Raise NotImplementedError) /\
  (NotImplementedError = NotImplementedError
   \/ NotImplementedError = AttributeError
   \/ NotImplementedError = IndexError).
Proof.
  assert (H1 : SemanticAnalyzer.analyze g_bare_call SemanticAnalyzer.init
               = (g_bare_call_analyzer, Ok tt)) by (vm_compute; reflexivity).
  assert (H2 : ANALYZER g_bare_call_checker = g_bare_call_analyzer)
    by reflexivity.
  assert (H3 : TypeChecker.check g_bare_call g_bare_call_checker
               = (printed g_bare_call_checker
                    [arg_type_error_tmpl 1 "g" "str" "int"],
                  Raise NotImplementedError)) by (vm_compute; reflexivity).
  repeat (split; [assumption|]).
  exact (check_after_analyze_failures _ _ _ _ _ _ H1 H2 H3).
Defined.

Lemma function_return_check_witness :
  FUNCTION_TYPE_INFO (ANALYZER g_assigned_to_str_checker) !! "g"
  = Some {| sig_args := [("x", TypeName "int")];
            sig_return := TypeName "int" |} /\
  TypeChecker.first_return_type
    [SimpleStatementLine [Return (Some (SimpleString "a"))]]
    g_assigned_to_str_checker
  = (g_assigned_to_str_checker, Ok STR_TYPE) /\
  TypeChecker._check_function_return "g"
    (IndentedBlock [SimpleStatementLine [Return (Some (SimpleString "a"))]])
    g_assigned_to_str_checker
  = (printed g_assigned_to_str_checker [return_value_error_tmpl "str" "int"],
     Ok tt).
Proof.
  assert (H1 : FUNCTION_TYPE_INFO (ANALYZER g_assigned_to_str_checker) !! "g"
               = Some {| sig_args := [("x", TypeName "int")];
                         sig_return := TypeName "int" |})
    by (vm_compute; reflexivity).
  assert (H2 : TypeChecker.first_return_type
                 [SimpleStatementLine [Return (Some (SimpleString "a"))]]
                 g_assigned_to_str_checker
               = (g_assigned_to_str_checker, Ok STR_TYPE)) by reflexivity.
  repeat (split; [assumption|]).
  apply (proj2 (function_return_check g_assigned_to_str_checker
                  g_assigned_to_str_checker "g" _ _ STR_TYPE H1 H2));
    discriminate.
Defined.

Lemma function_without_return_not_reported_witness :
  Forall line_without_return [SimpleStatementLine [ImportFrom]] /\
  TypeChecker._check_function_return "f"
    (IndentedBlock [SimpleStatementLine [ImportFrom]]) generics_typed_ng_checker
  = (generics_typed_ng_checker, Ok tt) /\
  TypeChecker._check_function_return "f" (SimpleStatementSuite [Pass])
    generics_typed_ng_checker
  = (generics_typed_ng_checker, Ok tt).
Proof.
  assert (H : Forall line_without_return [SimpleStatementLine [ImportFrom]])
    by (repeat constructor).
  split; [exact H|].
  exact (function_without_return_not_reported generics_typed_ng_checker "f"
           _ [Pass] H).
Defined.

Lemma unknown_callee_not_checked_witness :
  FUNCTION_TYPE_INFO (ANALYZER generics_typed_ng_checker) !! "deepcopy" = None /\
  TypeChecker.check_node
    (SimpleStatementLine
       [AnnAssign "w" "str" (Some (Call "deepcopy" [Name "x"]))])
    generics_typed_ng_checker
  = (generics_typed_ng_checker, Ok tt) /\
  TypeChecker.check_node
    (SimpleStatementLine [Expr (Call "deepcopy" [Name "x"])])
    generics_typed_ng_checker
  = (generics_typed_ng_checker, Ok tt) /\
  TypeChecker._resolve_node (Call "deepcopy" [Name "x"])
    generics_typed_ng_checker
  = (generics_typed_ng_checker, Ok ANY_TYPE).
Proof.
  assert (H : FUNCTION_TYPE_INFO (ANALYZER generics_typed_ng_checker)
              !! "deepcopy" = None) by (vm_compute; reflexivity).
  split; [exact H|].
  exact (unknown_callee_not_checked generics_typed_ng_checker "deepcopy" "w"
           "str" [Name "x"] [] H).
Defined.

Lemma literal_argument_check_witness :
  FUNCTION_TYPE_INFO (ANALYZER g_bare_call_checker) !! "g"
  = Some {| sig_args := [("x", TypeName "int")];
            sig_return := TypeName "int" |} /\
  TypeChecker.in_values "int" (GENERICS_TYPE_INFO (ANALYZER g_bare_call_checker))
  = false /\
  TypeChecker.check_argument "g" 0 (SimpleString "a") g_bare_call_checker
  = (printed g_bare_call_checker [arg_type_error_tmpl 1 "g" "str" "int"],
     Ok tt).
Proof.
  assert (H1 : FUNCTION_TYPE_INFO (ANALYZER g_bare_call_checker) !! "g"
               = Some {| sig_args := [("x", TypeName "int")];
                         sig_return := TypeName "int" |})
    by (vm_compute; reflexivity).
  assert (H2 : TypeChecker.in_values "int"
                 (GENERICS_TYPE_INFO (ANALYZER g_bare_call_checker)) = false)
    by (vm_compute; reflexivity).
  repeat (split; [assumption|]).
  apply (proj2 (literal_argument_check g_bare_call_checker "g" _ 0 "x"
                  (TypeName "int") (SimpleString "a") H1 eq_refl
                  ltac:(discriminate) H2)).
  discriminate.
Defined.

Lemma concrete_return_assignment_witness :
  FUNCTION_TYPE_INFO (ANALYZER g_assigned_to_str_checker) !! "g"
  = Some {| sig_args := [("x", TypeName "int")];
            sig_return := TypeName "int" |} /\
  TypeChecker.in_keys "int"
    (GENERICS_TYPE_INFO (ANALYZER g_assigned_to_str_checker)) = false /\
  VARIABLE_TYPE_INFO (ANALYZER g_assigned_to_str_checker) !! "v"
  = Some (TypeName "str") /\
  TypeChecker._check_return
    (AnnAssign "v" "str" (Some (Call "g" [Integer "1"])))
    g_assigned_to_str_checker
  = (printed g_assigned_to_str_checker [assignment_error_tmpl "int" "str"],
     Ok tt).
Proof.
  assert (H1 : FUNCTION_TYPE_INFO (ANALYZER g_assigned_to_str_checker) !! "g"
               = Some {| sig_args := [("x", TypeName "int")];
                         sig_return := TypeName "int" |})
    by (vm_compute; reflexivity).
  assert (H2 : TypeChecker.in_keys "int"
                 (GENERICS_TYPE_INFO (ANALYZER g_assigned_to_str_checker))
               = false) by (vm_compute; reflexivity).
  assert (H3 : VARIABLE_TYPE_INFO (ANALYZER g_assigned_to_str_checker) !! "v"
               = Some (TypeName "str")) by (vm_compute; reflexivity).
  repeat (split; [assumption|]).
  apply (proj2 (concrete_return_assignment g_assigned_to_str_checker "g" "v"
                  "str" _ [Integer "1"] (TypeName "str") H1 H2 H3));
    discriminate.
Defined.

Lemma generic_call_other_argument_witness :
  registered_generic (ANALYZER generics_typed_ng_checker) "T" /\
  FUNCTION_TYPE_INFO (ANALYZER generics_typed_ng_checker) !! "f"
  = Some {| sig_args := [("x", TypeName "T")]; sig_return := TypeName "T" |} /\
  VARIABLE_TYPE_INFO (ANALYZER generics_typed_ng_checker) !! "copy_x"
  = Some (TypeName "str") /\
  (forall n, SimpleString "a" <> Integer n) /\
  TypeChecker.check_node
    (SimpleStatementLine
       [AnnAssign "copy_x" "str" (Some (Call "f" [SimpleString "a"]))])
    generics_typed_ng_checker
  = (printed generics_typed_ng_checker [assignment_error_tmpl "any" "str"],
     Ok tt).
Proof.
  assert (H1 : registered_generic (ANALYZER generics_typed_ng_checker) "T")
    by (vm_compute; reflexivity).
  assert (H2 : FUNCTION_TYPE_INFO (ANALYZER generics_typed_ng_checker) !! "f"
               = Some {| sig_args := [("x", TypeName "T")];
                         sig_return := TypeName "T" |})
    by (vm_compute; reflexivity).
  assert (H3 : VARIABLE_TYPE_INFO (ANALYZER generics_typed_ng_checker)
               !! "copy_x" = Some (TypeName "str"))
    by (vm_compute; reflexivity).
  assert (H4 : forall n, SimpleString "a" <> Integer n) by discriminate.
  repeat (split; [assumption|]).
  apply (proj2 (generic_call_other_argument generics_typed_ng_checker "T" "f"
                  "x" "copy_x" "str" (SimpleString "a") (TypeName "str")
                  H1 H2 H3 H4)).
  discriminate.
Defined.
